(** * FileClient: chunked transfers of the storage-file client

    A shallow embedding of [sdk/storage/storage-file/src/FileClient.ts]:
    the parameter checks of [create] and [uploadRange], the resumable
    [download], and the high level transfers [UploadSeekableBlob],
    [uploadResetableStream], [downloadToBuffer] and [uploadStream].

    Byte counts and offsets are integers ([Z]).  The service behind
    [this.context] is a record of answers; every request sent to it is
    appended to a log kept in the state, so that "no network call" is the
    statement that the log did not grow. *)

From Stdlib Require Import ZArith QArith Qround List String Bool Lia.
From Stdlib Require Import Permutation Sorted DecimalString.
Import ListNotations.
Local Open Scope Z_scope.

(** ** Constants of [utils/constants] *)

(** Modelled from the spec: [utils/constants.ts] is not among the sources.
    [create] documents the size limit as "up to 1 TB". *)
Definition FILE_MAX_SIZE_BYTES : Z := 1024 * 1024 * 1024 * 1024.

(** Modelled from the spec: [utils/constants.ts] is not among the sources.
    [uploadStream] documents the range limit as "4 * 1024 * 1024 (4MB)". *)
Definition FILE_RANGE_MAX_SIZE_BYTES : Z := 4 * 1024 * 1024.

(** Modelled from the spec: [utils/constants.ts] is not among the sources.
    The option [parallelism] documents "5 parallelism will be used by default". *)
Definition DEFAULT_HIGH_LEVEL_PARALLELISM : Z := 5.

(** Modelled from the spec: [utils/constants.ts] is not among the sources.
    The option [maxRetryRequests] documents "Default value is 5". *)
Definition DEFAULT_MAX_DOWNLOAD_RETRY_REQUESTS : Z := 5.

(** ** JavaScript numbers used as byte counts *)

Definition Math_floor (q : Q) : Z := Qfloor q.
Definition Math_ceil (q : Q) : Z := Qceiling q.

(** Template-literal rendering of an integer. *)
Definition show (z : Z) : string := NilZero.string_of_int (Z.to_int z).

(** [!x] for an optional number: [undefined] and [0] are falsy. *)
Definition falsy (x : option Z) : bool :=
  match x with
  | None => true
  | Some v => v =? 0
  end.

(** The value of an optional number once it is known to be set. *)
Definition the (x : option Z) : Z :=
  match x with
  | None => 0
  | Some v => v
  end.

(** ** Errors, requests and the service *)

Inductive Error : Type :=
| RangeError (message : string)
| RestError (message : string).

Inductive Result (A : Type) : Type :=
| Ok (a : A)
| Throw (e : Error).
Arguments Ok {A} a.
Arguments Throw {A} e.

(** The argument of [rangeToString] ([Range.ts], not among the sources): a
    request carries the [Range] it was built from. *)
Record Range : Type := mkRange { offset : Z; count : option Z }.

(** What a request body is made of. *)
Inductive Body : Type :=
| SourceSlice (start size : Z)
| FilledBuffer (length : Z).

(** One call on [this.context]. *)
Inductive NetCall : Type :=
| CtxCreate (size : Z)
| CtxGetProperties
| CtxUploadRange (range : Range) (contentLength : Z) (optionalbody : Body)
| CtxDownload (range : option Range).

(** Answers of the service; [svc_download] gives the [contentLength] header
    of the response, which may be absent. *)
Record Service : Type := mkService {
  svc_create : Z -> Result unit;
  svc_getProperties : Result Z;
  svc_uploadRange : Range -> Z -> Result unit;
  svc_download : option Range -> Result (option Z)
}.

(** A call of [streamToBuffer] ([utils/utils.node], not among the sources):
    the window of the destination buffer it is asked to fill. *)
Record BufferFill : Type := mkFill { fill_offset : Z; fill_end : Z }.

(** The mutable state a transfer touches. *)
Record St : Type := mkSt {
  calls : list NetCall;
  transferProgress : Z;
  progressLog : list Z;
  fills : list BufferFill
}.

Definition initial : St := mkSt [] 0 [] [].

(** ** State and exception monad *)

Definition M (A : Type) : Type := St -> Result A * St.

Definition ret {A} (a : A) : M A := fun s => (Ok a, s).

Definition throw {A} (e : Error) : M A := fun s => (Throw e, s).

Definition bind {A B} (m : M A) (k : A -> M B) : M B :=
  fun s =>
    match m s with
    | (Ok a, s') => k a s'
    | (Throw e, s') => (Throw e, s')
    end.

Declare Scope client_scope.
Delimit Scope client_scope with client.
Notation "x <- m ;; k" := (bind m (fun x => k))
  (at level 61, m at next level, right associativity) : client_scope.
Notation "m ;; k" := (bind m (fun _ => k))
  (at level 61, right associativity) : client_scope.
Local Open Scope client_scope.

(** An outcome computed without touching the state. *)
Definition liftResult {A} (r : Result A) : M A := fun s => (r, s).

(** The promise of an asynchronous call that is not awaited yet: the call
    runs up to its request, and its outcome is kept for the [await]. *)
Definition attempt {A} (m : M A) : M (Result A) :=
  fun s => let '(r, s') := m s in (Ok r, s').

(** Modelled from the spec: [rangeToString] of [Range.ts] is not among the
    sources.  It is a parameter check made before any network call (spec 7:
    a negative offset is a validation error): it refuses an offset below 0
    and a count that is given, is not 0, and is not above 0 ([download]
    documents its count as "> 0", and "to the end when undefined").  The
    string it builds is stood for by the range it denotes: [count] bytes from
    [offset], or everything from [offset] on when the count is undefined
    or 0. *)
Definition rangeToString (iRange : Range) : Result Range :=
  if offset iRange <? 0
  then Throw (RangeError "Range.offset cannot be smaller than 0.")
  else if negb (falsy (count iRange)) && (the (count iRange) <=? 0)
  then Throw (RangeError
         "Range.count must be larger than 0. Leave it undefined if you want a range from offset to the end.")
  else Ok (mkRange (offset iRange) (if falsy (count iRange) then None else count iRange)).

(** Sending a request: it is logged, and the service's answer is the outcome. *)
Definition request {A} (c : NetCall) (answer : Result A) : M A :=
  fun s => (answer, mkSt (calls s ++ [c]) (transferProgress s) (progressLog s) (fills s)).

Definition setTransferProgress (v : Z) : M unit :=
  fun s => (Ok tt, mkSt (calls s) v (progressLog s) (fills s)).

Definition getTransferProgress : M Z :=
  fun s => (Ok (transferProgress s), s).

(** [options.progress({ loadedBytes })], when the caller gave a callback. *)
Definition progress (enabled : bool) (loadedBytes : Z) : M unit :=
  fun s =>
    if enabled
    then (Ok tt, mkSt (calls s) (transferProgress s) (progressLog s ++ [loadedBytes]) (fills s))
    else (Ok tt, s).

Definition streamToBuffer (off end_ : Z) : M unit :=
  fun s => (Ok tt, mkSt (calls s) (transferProgress s) (progressLog s) (fills s ++ [mkFill off end_])).

(** ** Low level operations *)

Section Client.

Variable svc : Service.
Variable isNode : bool.

Definition create (size : Z) : M unit :=
  if (size <? 0) || (size >? FILE_MAX_SIZE_BYTES)
  then throw (RangeError ("File size must >= 0 and < " ++ show FILE_MAX_SIZE_BYTES ++ "."))
  else request (CtxCreate size) (svc_create svc size).

Definition getProperties : M Z :=
  request CtxGetProperties (svc_getProperties svc).

Definition uploadRange (body : Body) (offset contentLength : Z) : M unit :=
  if (offset <? 0) || (contentLength <=? 0)
  then throw (RangeError "offset must >= 0 and contentLength must be > 0")
  else if contentLength >? FILE_RANGE_MAX_SIZE_BYTES
  then throw (RangeError ("offset must be < " ++ show FILE_RANGE_MAX_SIZE_BYTES ++ " bytes"))
  else request (CtxUploadRange (mkRange offset (Some contentLength)) contentLength body)
               (svc_uploadRange svc (mkRange offset (Some contentLength)) contentLength).

(** The factory handed to [FileDownloadResponse] by [download]: called
    with the position [start] at which the body stream broke. *)
Definition reopen (offset contentLength start : Z) : M unit :=
  updatedOptions <-
    liftResult (rangeToString (mkRange start (Some (offset + contentLength - start)))) ;;
  _ <- request (CtxDownload (Some updatedOptions)) (svc_download svc (Some updatedOptions)) ;;
  ret tt.

(** The arguments [FileDownloadResponse] is constructed with. *)
Record FileDownloadResponse : Type := mkFileDownloadResponse {
  fdr_getter : Z -> M unit;
  fdr_offset : Z;
  fdr_count : Z;
  fdr_maxRetryRequests : Z
}.

Inductive DownloadResult : Type :=
| BrowserResponse (contentLength : option Z)
| NodeResponse (response : FileDownloadResponse).

Definition download (offset : Z) (count : option Z)
    (rangeGetContentMD5 : bool) (maxRetryRequests : option Z) : M DownloadResult :=
  if rangeGetContentMD5 && (offset =? 0) && (match count with None => true | Some _ => false end)
  then throw (RangeError "rangeGetContentMD5 only works with partial data downloading")
  else
    let downloadFullFile := (offset =? 0) && falsy count in
    range <-
      (if downloadFullFile then ret None
       else r <- liftResult (rangeToString (mkRange offset count)) ;; ret (Some r)) ;;
    res <- request (CtxDownload range) (svc_download svc range) ;;
    if negb isNode then ret (BrowserResponse res)
    else
      let maxRetryRequests :=
        match maxRetryRequests with
        | None => DEFAULT_MAX_DOWNLOAD_RETRY_REQUESTS
        | Some v => if v <? 0 then DEFAULT_MAX_DOWNLOAD_RETRY_REQUESTS else v
        end in
      match res with
      | None =>
          throw (RangeError "File download response doesn't contain valid content length header")
      | Some contentLength =>
          ret (NodeResponse
                 (mkFileDownloadResponse (reopen offset contentLength)
                    offset contentLength maxRetryRequests))
      end.

(** ** Batches of chunk operations *)

(** Options of the high level transfers; [progress] tells whether the
    caller gave a callback. *)
Record UploadToAzureFileOptions : Type := mkUploadOptions {
  up_rangeSize : option Z;
  up_parallelism : option Z;
  up_progress : bool
}.

Record DownloadFromAzureFileOptions : Type := mkDownloadOptions {
  down_rangeSize : option Z;
  down_maxRetryRequestsPerRange : option Z;
  down_parallelism : option Z;
  down_progress : bool
}.

(** The closures given to [batch.addOperation], each with the variables it
    captured: the loop variable ([i], [off]) is bound afresh per iteration. *)
Inductive Operation : Type :=
| UploadChunk (size rangeSize numBlocks : Z) (progress : bool) (i : Z)
| DownloadChunk (offset count rangeSize : Z) (maxRetryRequestsPerRange : option Z)
    (progress : bool) (off : Z).

(** [utils/Batch] is not among the sources: a batch is the concurrency it
    was made with and the operations added to it, in order. *)
Record Batch : Type := mkBatch {
  concurrency : Z;
  operations : list Operation
}.

Definition newBatch (parallelism : Z) : Batch := mkBatch parallelism [].

Definition addOperation (b : Batch) (op : Operation) : Batch :=
  mkBatch (concurrency b) (operations b ++ [op]).

(** [start] and [contentLength] of upload chunk [i]. *)
Definition uploadChunkRange (size rangeSize numBlocks i : Z) : Z * Z :=
  let start := rangeSize * i in
  let end_ := if i =? numBlocks - 1 then size else start + rangeSize in
  let contentLength := end_ - start in
  (start, contentLength).

(** [chunkEnd] of the download chunk starting at [off]. *)
Definition downloadChunkEnd (count rangeSize off : Z) : Z :=
  if off + rangeSize <? count then off + rangeSize else count.

Definition addTransferProgress (n : Z) : M Z :=
  t <- getTransferProgress ;;
  _ <- setTransferProgress (t + n) ;;
  getTransferProgress.

Definition runOperation (op : Operation) : M unit :=
  match op with
  | UploadChunk size rangeSize numBlocks onProgress i =>
      let '(start, contentLength) := uploadChunkRange size rangeSize numBlocks i in
      _ <- uploadRange (SourceSlice start contentLength) start contentLength ;;
      t <- addTransferProgress contentLength ;;
      progress onProgress t
  | DownloadChunk offset count rangeSize maxRetryRequestsPerRange onProgress off =>
      let chunkEnd := downloadChunkEnd count rangeSize off in
      _ <- download off (Some (chunkEnd - off + 1)) false maxRetryRequestsPerRange ;;
      _ <- streamToBuffer (off - offset) (chunkEnd - offset) ;;
      t <- addTransferProgress (chunkEnd - off) ;;
      progress onProgress t
  end.

(** Operations of a batch settling one after the other in the given order;
    the order is the scheduler's choice. *)
Fixpoint settle (order : list Operation) : M unit :=
  match order with
  | [] => ret tt
  | op :: rest => _ <- runOperation op ;; settle rest
  end.

(** [for (let i = 0; i < n; i++) batch.addOperation(op i)] *)
Definition forBlocks (n : Z) (op : Z -> Operation) (b : Batch) : Batch :=
  fold_left (fun b i => addOperation b (op (Z.of_nat i))) (seq 0 (Z.to_nat n)) b.

(** [for (let off = from; off < stop; off = off + step) batch.addOperation(op off)] *)
Fixpoint forOffsets (fuel : nat) (off stop step : Z) (op : Z -> Operation) (b : Batch) : Batch :=
  match fuel with
  | O => b
  | S fuel' =>
      if off <? stop
      then forOffsets fuel' (off + step) stop step op (addOperation b (op off))
      else b
  end.

(** ** High level transfers *)

Definition numBlocks (size rangeSize : Z) : Z :=
  Math_floor (inject_Z (size - 1) / inject_Z rangeSize) + 1.

(** The loop of the chunked uploads, after the file was created. *)
Definition enqueueUploads (size rangeSize parallelism : Z) (onProgress : bool) : Batch :=
  let numBlocks := numBlocks size rangeSize in
  let batch := newBatch parallelism in
  forBlocks numBlocks (fun i => UploadChunk size rangeSize numBlocks onProgress i) batch.

Definition uploadResetableStream (size : Z) (options : UploadToAzureFileOptions) : M Batch :=
  let rangeSize :=
    if falsy (up_rangeSize options) then FILE_RANGE_MAX_SIZE_BYTES else the (up_rangeSize options) in
  if (rangeSize <? 0) || (rangeSize >? FILE_RANGE_MAX_SIZE_BYTES)
  then throw (RangeError ("options.rangeSize must be > 0 and <= " ++ show FILE_RANGE_MAX_SIZE_BYTES))
  else
    let parallelism :=
      if falsy (up_parallelism options) then DEFAULT_HIGH_LEVEL_PARALLELISM
      else the (up_parallelism options) in
    if parallelism <? 0
    then throw (RangeError "options.parallelism cannot less than 0.")
    else
      _ <- create size ;;
      _ <- setTransferProgress 0 ;;
      ret (enqueueUploads size rangeSize parallelism (up_progress options)).

(** The browser twin of [uploadResetableStream]: the same statements, the
    body of every range being a slice of the blob instead of a stream. *)
Definition UploadSeekableBlob (size : Z) (options : UploadToAzureFileOptions) : M Batch :=
  let rangeSize :=
    if falsy (up_rangeSize options) then FILE_RANGE_MAX_SIZE_BYTES else the (up_rangeSize options) in
  if (rangeSize <? 0) || (rangeSize >? FILE_RANGE_MAX_SIZE_BYTES)
  then throw (RangeError ("options.rangeSize must be > 0 and <= " ++ show FILE_RANGE_MAX_SIZE_BYTES))
  else
    let parallelism :=
      if falsy (up_parallelism options) then DEFAULT_HIGH_LEVEL_PARALLELISM
      else the (up_parallelism options) in
    if parallelism <? 0
    then throw (RangeError "options.parallelism cannot less than 0.")
    else
      _ <- create size ;;
      _ <- setTransferProgress 0 ;;
      ret (enqueueUploads size rangeSize parallelism (up_progress options)).

(** The loop of [downloadToBuffer], once [count] is known. *)
Definition enqueueDownloads (offset count rangeSize parallelism : Z)
    (maxRetryRequestsPerRange : option Z) (onProgress : bool) : Batch :=
  forOffsets (Z.to_nat count) offset (offset + count) rangeSize
    (fun off => DownloadChunk offset count rangeSize maxRetryRequestsPerRange onProgress off)
    (newBatch parallelism).

Definition downloadToBuffer (bufferLength offset : Z) (count : option Z)
    (options : DownloadFromAzureFileOptions) : M Batch :=
  let rangeSize :=
    if falsy (down_rangeSize options) then FILE_RANGE_MAX_SIZE_BYTES
    else the (down_rangeSize options) in
  if rangeSize <? 0 then throw (RangeError "rangeSize option must be > 0")
  else if offset <? 0 then throw (RangeError "offset option must be >= 0")
  else if negb (falsy count) && (the count <=? 0)
  then throw (RangeError "count option must be > 0")
  else
    let parallelism :=
      if falsy (down_parallelism options) then DEFAULT_HIGH_LEVEL_PARALLELISM
      else the (down_parallelism options) in
    if parallelism <? 0
    then throw (RangeError "options.parallelism cannot less than 0.")
    else
      count <-
        (if falsy count
         then
           contentLength <- getProperties ;;
           let count := contentLength - offset in
           if count <? 0
           then throw (RangeError ("offset " ++ show offset
                         ++ " shouldn't be larger than file size " ++ show contentLength))
           else ret count
         else ret (the count)) ;;
      if bufferLength <? count
      then throw (RangeError
             ("The buffer's size should be equal to or larger than the request count of bytes: "
              ++ show count))
      else
        _ <- setTransferProgress 0 ;;
        ret (enqueueDownloads offset count rangeSize parallelism
               (down_maxRetryRequestsPerRange options) (down_progress options)).

(** [utils/BufferScheduler] is not among the sources: the arguments its
    constructor is called with. *)
Record BufferScheduler : Type := mkBufferScheduler {
  bs_bufferSize : Z;
  bs_maxBuffers : Z;
  bs_outgoingHandler : Z -> Z -> M unit;
  bs_parallelism : Z
}.

(** The outgoing handler of [uploadStream], for a filled buffer of
    [bufferLength] bytes recorded at [offset], up to its [await]: the size
    test, then the call of [uploadRange], whose outcome is awaited. *)
Definition outgoingHandlerStart (size bufferLength offset : Z) : M (Result unit) :=
  t <- getTransferProgress ;;
  if t + bufferLength >? size
  then throw (RangeError ("Stream size is larger than file size " ++ show size
                ++ " bytes, uploading failed. "
                ++ "Please make sure stream length is less or equal than file size."))
  else attempt (uploadRange (FilledBuffer bufferLength) offset bufferLength).

(** The handler from its [await] on, once [uploadRange] has settled with
    [answer]; other handlers may have run in between. *)
Definition outgoingHandlerResume (onProgress : bool) (bufferLength : Z)
    (answer : Result unit) : M unit :=
  _ <- liftResult answer ;;
  t' <- addTransferProgress bufferLength ;;
  progress onProgress t'.

(** A handler during whose [await] nothing else runs. *)
Definition outgoingHandler (size : Z) (onProgress : bool) (bufferLength offset : Z) : M unit :=
  answer <- outgoingHandlerStart size bufferLength offset ;;
  outgoingHandlerResume onProgress bufferLength answer.

(** Handlers in flight together: each is started, in the order of the
    buffers [(bufferLength, offset)], before any of them is resumed. *)
Fixpoint startHandlers (size : Z) (buffers : list (Z * Z)) : M (list (Z * Result unit)) :=
  match buffers with
  | [] => ret []
  | (bufferLength, offset) :: rest =>
      answer <- outgoingHandlerStart size bufferLength offset ;;
      pending <- startHandlers size rest ;;
      ret ((bufferLength, answer) :: pending)
  end.

Fixpoint resumeHandlers (onProgress : bool) (pending : list (Z * Result unit)) : M unit :=
  match pending with
  | [] => ret tt
  | (bufferLength, answer) :: rest =>
      _ <- outgoingHandlerResume onProgress bufferLength answer ;;
      resumeHandlers onProgress rest
  end.

Definition outgoingParallelism (maxBuffers : Z) : Z :=
  Math_ceil ((inject_Z maxBuffers / 4) * 3).

Definition uploadStream (size bufferSize maxBuffers : Z) (onProgress : bool) : M BufferScheduler :=
  if (bufferSize <=? 0) || (bufferSize >? FILE_RANGE_MAX_SIZE_BYTES)
  then throw (RangeError ("bufferSize must be > 0 and <= " ++ show FILE_RANGE_MAX_SIZE_BYTES))
  else if maxBuffers <? 0
  then throw (RangeError "maxBuffers must be > 0.")
  else
    _ <- create size ;;
    _ <- setTransferProgress 0 ;;
    ret (mkBufferScheduler bufferSize maxBuffers (outgoingHandler size onProgress)
           (outgoingParallelism maxBuffers)).

End Client.

(** ** Observations on operations and plans *)

(** The byte range an operation is about: where it starts and how long it is. *)
Definition chunkOf (op : Operation) : Z * Z :=
  match op with
  | UploadChunk size rangeSize numBlocks _ i => uploadChunkRange size rangeSize numBlocks i
  | DownloadChunk _ count rangeSize _ _ off => (off, downloadChunkEnd count rangeSize off - off)
  end.

Definition covers (c : Z * Z) (b : Z) : Prop := fst c <= b < fst c + snd c.

(** [tiles from plan to]: the chunks of [plan] are non-empty, the first
    starts at [from], each next one starts where the previous one ends, and
    the last one ends at [to]. *)
Fixpoint tiles (from : Z) (plan : list (Z * Z)) (to : Z) : Prop :=
  match plan with
  | [] => from = to
  | c :: rest => fst c = from /\ 0 < snd c /\ tiles (from + snd c) rest to
  end.

Definition totalLength (plan : list (Z * Z)) : Z :=
  fold_right (fun c acc => snd c + acc) 0 plan.

(** The totals reported while chunks of the given lengths settle. *)
Fixpoint runningTotals (acc : Z) (lengths : list Z) : list Z :=
  match lengths with
  | [] => []
  | n :: rest => (acc + n) :: runningTotals (acc + n) rest
  end.

(** The exclusive end of a range request. *)
Definition rangeEnd (r : Range) : option Z :=
  option_map (fun c => offset r + c) (count r).

Definition parallelismOf (parallelism : option Z) : Z :=
  if falsy parallelism then DEFAULT_HIGH_LEVEL_PARALLELISM else the parallelism.

Definition rangeSizeOf (rangeSize : option Z) : Z :=
  if falsy rangeSize then FILE_RANGE_MAX_SIZE_BYTES else the rangeSize.

(** The sum of a list of lengths. *)
Definition sumOf (lengths : list Z) : Z := fold_right Z.add 0 lengths.

(** The range upload of a chunk. *)
Definition uploadCall (c : Z * Z) : NetCall :=
  CtxUploadRange (mkRange (fst c) (Some (snd c))) (snd c) (SourceSlice (fst c) (snd c)).

(** An upload operation whose chunk passes the checks of [uploadRange]. *)
Definition uploadable (onProgress : bool) (op : Operation) : Prop :=
  (exists size rangeSize n i, op = UploadChunk size rangeSize n onProgress i) /\
  0 <= fst (chunkOf op) /\
  0 < snd (chunkOf op) <= FILE_RANGE_MAX_SIZE_BYTES.

(** Number of iterations of [for (off = from; off < stop; off += step)]. *)
Definition iterations (from stop step : Z) : nat :=
  Z.to_nat ((stop - from + step - 1) / step).

(** Where upload chunk [i] starts; past the last chunk, the end of the file. *)
Definition boundary (size rangeSize : Z) (i : nat) : Z :=
  if Z.of_nat i <? numBlocks size rangeSize then rangeSize * Z.of_nat i else size.

(** ** Example services *)

(** A service on a file of [fileSize] bytes that accepts every request and
    answers a ranged download with the length asked for. *)
Definition serviceOf (fileSize : Z) : Service :=
  mkService
    (fun _ => Ok tt)
    (Ok fileSize)
    (fun _ _ => Ok tt)
    (fun range =>
       match range with
       | Some (mkRange _ (Some c)) => Ok (Some c)
       | Some (mkRange from None) => Ok (Some (fileSize - from))
       | None => Ok (Some fileSize)
       end).

(** A service that answers as [serviceOf 0] does but refuses every range
    upload. *)
Definition refusingService : Service :=
  mkService
    (fun _ => Ok tt)
    (Ok 0)
    (fun _ _ => Throw (RestError "refused"))
    (svc_download (serviceOf 0)).

(** A service whose download responses carry no content length. *)
Definition headerlessService : Service :=
  mkService (fun _ => Ok tt) (Ok 0) (fun _ _ => Ok tt) (fun _ => Ok None).

(** ** Callers of the chunked uploads *)

(** Options given to [fs.createReadStream]; an [end] of [None] is [Infinity]. *)
Record ReadStreamOptions : Type := mkReadStreamOptions {
  rs_start : Z;
  rs_end : option Z
}.

(** The stream factory [uploadFile] hands to [uploadResetableStream]. *)
Definition uploadFile_streamFactory (offset : Z) (count : option Z) : ReadStreamOptions :=
  mkReadStreamOptions offset (if falsy count then None else Some (offset + the count - 1)).

(** [uploadFile]; [statSize] is [fs.statSync(filePath).size], and options
    that are not given are the empty object. *)
Definition uploadFile (svc : Service) (statSize : Z)
    (options : option UploadToAzureFileOptions) : M Batch :=
  uploadResetableStream svc statSize
    (match options with
     | Some given => given
     | None => mkUploadOptions None None false
     end).

(** The bounds of [browserBlob.slice] in the blob factory of
    [uploadBrowserData]. *)
Definition uploadBrowserData_blobFactory (offset size : Z) : Z * Z :=
  (offset, offset + size).

(** [uploadBrowserData]; [blobSize] is [browserBlob.size]. *)
Definition uploadBrowserData (svc : Service) (blobSize : Z)
    (options : UploadToAzureFileOptions) : M Batch :=
  UploadSeekableBlob svc blobSize options.

(** What an upload operation of [uploadFile] opens: its chunk is passed to
    the stream factory as [(start, contentLength)]. *)
Definition streamOf (op : Operation) : ReadStreamOptions :=
  uploadFile_streamFactory (fst (chunkOf op)) (Some (snd (chunkOf op))).

(** What an upload operation of [uploadBrowserData] slices. *)
Definition sliceOf (op : Operation) : Z * Z :=
  uploadBrowserData_blobFactory (fst (chunkOf op)) (snd (chunkOf op)).

(** ** Observations on download operations *)

(** The window of the destination buffer a download operation fills. *)
Definition windowOf (op : Operation) : option BufferFill :=
  match op with
  | DownloadChunk offset count rangeSize _ _ off =>
      Some (mkFill (off - offset) (downloadChunkEnd count rangeSize off - offset))
  | UploadChunk _ _ _ _ _ => None
  end.

(** The range [download] asks for: none for the whole file, and otherwise
    what [rangeToString] makes of [{offset, count}]. *)
Definition requestedRange (offset : Z) (count : option Z) : Result (option Range) :=
  if (offset =? 0) && falsy count then Ok None
  else
    match rangeToString (mkRange offset count) with
    | Ok r => Ok (Some r)
    | Throw e => Throw e
    end.

(** ** Tactics *)

Ltac decide_tests :=
  repeat match goal with
  | |- context [(?a <? ?b)] =>
      first [ rewrite (proj2 (Z.ltb_lt a b)) by lia | rewrite (proj2 (Z.ltb_ge a b)) by lia ]
  | |- context [(?a <=? ?b)] =>
      first [ rewrite (proj2 (Z.leb_le a b)) by lia | rewrite (proj2 (Z.leb_gt a b)) by lia ]
  | |- context [(?a >? ?b)] => rewrite (Z.gtb_ltb a b)
  | |- context [(?a =? ?b)] =>
      first [ rewrite (proj2 (Z.eqb_eq a b)) by lia | rewrite (proj2 (Z.eqb_neq a b)) by lia ]
  end.

Ltac run := unfold bind, ret, throw, request; cbn [fst snd].

Ltac split_test :=
  match goal with
  | |- context [if ?b then _ else _] => destruct b eqn:?
  end.

(** ** Parameter checks *)

Lemma create_rejects svc size s :
  size < 0 \/ size > FILE_MAX_SIZE_BYTES ->
  exists msg, create svc size s = (Throw (RangeError msg), s).
Proof.
  intros H. unfold create.
  destruct H as [H | H]; decide_tests; rewrite ?orb_true_r; eexists; reflexivity.
Qed.

Lemma create_sends svc size s :
  0 <= size <= FILE_MAX_SIZE_BYTES ->
  create svc size s =
  (svc_create svc size,
   mkSt (calls s ++ [CtxCreate size]) (transferProgress s) (progressLog s) (fills s)).
Proof.
  intros H. unfold create. decide_tests. reflexivity.
Qed.

Lemma uploadRange_rejects svc body off len s :
  off < 0 \/ len <= 0 \/ len > FILE_RANGE_MAX_SIZE_BYTES ->
  exists msg, uploadRange svc body off len s = (Throw (RangeError msg), s).
Proof.
  intros H. unfold uploadRange.
  destruct (Z.ltb_spec off 0); cbn [orb]; [eexists; reflexivity |].
  destruct (Z.leb_spec len 0); [eexists; reflexivity |].
  decide_tests. eexists; reflexivity.
Qed.

Lemma uploadRange_sends svc body off len s :
  0 <= off -> 0 < len <= FILE_RANGE_MAX_SIZE_BYTES ->
  uploadRange svc body off len s =
  (svc_uploadRange svc (mkRange off (Some len)) len,
   mkSt (calls s ++ [CtxUploadRange (mkRange off (Some len)) len body])
     (transferProgress s) (progressLog s) (fills s)).
Proof.
  intros H1 H2. unfold uploadRange. decide_tests. reflexivity.
Qed.

(** C8: [create] and [uploadRange] check their parameters before anything
    is sent.  A size below 0 or above [FILE_MAX_SIZE_BYTES] makes [create]
    throw a [RangeError]; an offset below 0, a content length of 0 or less,
    or one above [FILE_RANGE_MAX_SIZE_BYTES] makes [uploadRange] throw a
    [RangeError].  In each case the state, and with it the log of requests,
    is left as it was. *)
Theorem validation_precedes_requests :
  forall svc s size body off len,
    (size < 0 \/ size > FILE_MAX_SIZE_BYTES ->
     exists msg, create svc size s = (Throw (RangeError msg), s)) /\
    (off < 0 \/ len <= 0 \/ len > FILE_RANGE_MAX_SIZE_BYTES ->
     exists msg, uploadRange svc body off len s = (Throw (RangeError msg), s)).
Proof.
  intros. split; [apply create_rejects | apply uploadRange_rejects].
Qed.

Lemma validation_precedes_requests_witness :
  (exists msg, create (serviceOf 0) (FILE_MAX_SIZE_BYTES + 1) initial
               = (Throw (RangeError msg), initial)) /\
  (exists msg, uploadRange (serviceOf 0) (FilledBuffer 0) 0 0 initial
               = (Throw (RangeError msg), initial)).
Proof.
  destruct (validation_precedes_requests (serviceOf 0) initial
              (FILE_MAX_SIZE_BYTES + 1) (FilledBuffer 0) 0 0) as [Hc Hu].
  split.
  - apply Hc. right. lia.
  - apply Hu. right. left. lia.
Defined.

(** ** [downloadToBuffer]: the destination must hold the requested count *)

(** C3: when a count above 0 is given and the destination buffer is shorter
    than it, [downloadToBuffer] throws a [RangeError] and leaves the state
    as it was: nothing has been sent to the service.  This holds whatever
    the other arguments are, because every check placed before the buffer
    check throws a [RangeError] as well and none of them sends a request. *)
Theorem downloadToBuffer_short_buffer :
  forall svc bufferLength off c options s,
    0 < c ->
    bufferLength < c ->
    exists msg,
      downloadToBuffer svc bufferLength off (Some c) options s
      = (Throw (RangeError msg), s).
Proof.
  intros svc bufferLength off c options s Hc Hb.
  unfold downloadToBuffer. cbn [falsy the].
  rewrite (proj2 (Z.eqb_neq c 0)) by lia.
  rewrite (proj2 (Z.leb_gt c 0)) by lia.
  cbn [negb andb].
  split_test; [eexists; reflexivity |].
  split_test; [eexists; reflexivity |].
  split_test; [eexists; reflexivity |].
  run. rewrite (proj2 (Z.ltb_lt bufferLength c)) by lia.
  eexists; reflexivity.
Qed.

Lemma downloadToBuffer_short_buffer_witness :
  exists msg,
    downloadToBuffer (serviceOf 100) 3 0 (Some 4) (mkDownloadOptions None None None true) initial
    = (Throw (RangeError msg), initial).
Proof.
  apply (downloadToBuffer_short_buffer (serviceOf 100) 3 0 4
           (mkDownloadOptions None None None true) initial); lia.
Defined.

(** ** [download]: the factory that reopens a broken body stream *)

Lemma rangeToString_accepts off c :
  0 <= off -> 0 < c -> rangeToString (mkRange off (Some c)) = Ok (mkRange off (Some c)).
Proof.
  intros Ho Hc. unfold rangeToString. cbn [offset count falsy the].
  decide_tests. reflexivity.
Qed.

Lemma rangeToString_accepts_open off cnt :
  0 <= off -> falsy cnt = true -> rangeToString (mkRange off cnt) = Ok (mkRange off None).
Proof.
  intros Ho Hf. unfold rangeToString. cbn [offset count]. rewrite Hf.
  decide_tests. reflexivity.
Qed.

Lemma rangeToString_rejects off cnt :
  off < 0 \/ (exists c, cnt = Some c /\ c < 0) ->
  exists msg, rangeToString (mkRange off cnt) = Throw (RangeError msg).
Proof.
  intros H. unfold rangeToString. cbn [offset count].
  destruct (Z.ltb_spec off 0); [eexists; reflexivity |].
  destruct H as [H | (c & -> & Hc)]; [lia |].
  cbn [falsy the]. decide_tests. cbn [negb andb]. eexists; reflexivity.
Qed.

Lemma reopen_sends svc off contentLength start t :
  0 <= start < off + contentLength ->
  reopen svc off contentLength start t =
  (match svc_download svc (Some (mkRange start (Some (off + contentLength - start)))) with
   | Ok _ => Ok tt
   | Throw e => Throw e
   end,
   mkSt (calls t ++ [CtxDownload (Some (mkRange start (Some (off + contentLength - start))))])
     (transferProgress t) (progressLog t) (fills t)).
Proof.
  intros Hstart. unfold reopen, liftResult. run.
  rewrite rangeToString_accepts by lia.
  destruct (svc_download svc _); reflexivity.
Qed.

(** C6: on Node.js, for an offset of 0 or more and a count that is not
    negative, when the first response of [download] carries a content
    length, the response object is built with a factory that, called in any
    state with a resume position [start] inside the range, from [offset] up
    to but not including [offset + contentLength], appends exactly one
    request to the log: a ranged download whose range starts at [start],
    asks for [offset + contentLength - start] bytes, and so ends where the
    original range ends. *)
Theorem download_reopen_from_start :
  forall svc off cnt md5 maxRetry contentLength s,
    md5 && (off =? 0) && (match cnt with None => true | Some _ => false end) = false ->
    0 <= off ->
    (forall c, cnt = Some c -> 0 <= c) ->
    svc_download svc
      (if (off =? 0) && falsy cnt then None
       else Some (mkRange off (if falsy cnt then None else cnt)))
      = Ok (Some contentLength) ->
    exists r s',
      download svc true off cnt md5 maxRetry s = (Ok (NodeResponse r), s') /\
      fdr_offset r = off /\
      fdr_count r = contentLength /\
      forall start t,
        off <= start < off + contentLength ->
        let range := mkRange start (Some (off + contentLength - start)) in
        calls (snd (fdr_getter r start t)) = calls t ++ [CtxDownload (Some range)] /\
        offset range = start /\
        rangeEnd range = Some (off + contentLength).
Proof.
  intros svc off cnt md5 maxRetry contentLength s Hmd5 Hoff Hcnt Hres.
  assert (Haccepted : falsy cnt = false ->
                      rangeToString (mkRange off cnt) = Ok (mkRange off cnt)).
  { destruct cnt as [c |]; cbn [falsy]; [| discriminate].
    intros Hc. apply Z.eqb_neq in Hc. specialize (Hcnt c eq_refl).
    apply rangeToString_accepts; lia. }
  unfold download, liftResult. rewrite Hmd5. run.
  destruct (falsy cnt) eqn:Hf.
  - destruct (Z.eqb_spec off 0) as [-> | Hne]; cbn [andb] in Hres |- *.
    + run. rewrite Hres. cbn [negb].
      eexists. eexists. split; [reflexivity |].
      cbn [fdr_offset fdr_count fdr_getter].
      repeat split.
      * rewrite reopen_sends by lia. reflexivity.
      * unfold rangeEnd. cbn. f_equal. lia.
    + rewrite rangeToString_accepts_open by (assumption || lia). run.
      rewrite Hres. cbn [negb].
      eexists. eexists. split; [reflexivity |].
      cbn [fdr_offset fdr_count fdr_getter].
      repeat split.
      * rewrite reopen_sends by lia. reflexivity.
      * unfold rangeEnd. cbn. f_equal. lia.
  - rewrite andb_false_r in Hres |- *.
    rewrite Haccepted by reflexivity. run. rewrite Hres. cbn [negb].
    eexists. eexists. split; [reflexivity |].
    cbn [fdr_offset fdr_count fdr_getter].
    repeat split.
    + rewrite reopen_sends by lia. reflexivity.
    + unfold rangeEnd. cbn. f_equal. lia.
Qed.

Lemma download_reopen_from_start_witness :
  exists r s',
    download (serviceOf 1000) true 100 (Some 50) false None initial = (Ok (NodeResponse r), s') /\
    fdr_offset r = 100 /\
    fdr_count r = 50 /\
    forall start t,
      100 <= start < 100 + 50 ->
      let range := mkRange start (Some (100 + 50 - start)) in
      calls (snd (fdr_getter r start t)) = calls t ++ [CtxDownload (Some range)] /\
      offset range = start /\
      rangeEnd range = Some (100 + 50).
Proof.
  apply (download_reopen_from_start (serviceOf 1000) 100 (Some 50) false None 50 initial).
  - reflexivity.
  - lia.
  - intros c Hc. injection Hc as <-. lia.
  - reflexivity.
Defined.

(** ** [uploadStream] *)

Lemma outgoingHandlerStart_over_size svc size len off t :
  transferProgress t + len > size ->
  exists msg, outgoingHandlerStart svc size len off t = (Throw (RangeError msg), t).
Proof.
  intros H. unfold outgoingHandlerStart, getTransferProgress. run.
  decide_tests. eexists; reflexivity.
Qed.

Lemma outgoingHandlerStart_sends svc size len off t :
  transferProgress t + len <= size ->
  0 <= off ->
  0 < len <= FILE_RANGE_MAX_SIZE_BYTES ->
  outgoingHandlerStart svc size len off t =
  (Ok (svc_uploadRange svc (mkRange off (Some len)) len),
   mkSt (calls t ++ [CtxUploadRange (mkRange off (Some len)) len (FilledBuffer len)])
     (transferProgress t) (progressLog t) (fills t)).
Proof.
  intros Hs Ho Hl. unfold outgoingHandlerStart, getTransferProgress, attempt. run.
  decide_tests. rewrite uploadRange_sends by lia. reflexivity.
Qed.

Lemma outgoingHandlerResume_accepted onProgress len u :
  outgoingHandlerResume onProgress len (Ok tt) u =
  (Ok tt,
   mkSt (calls u) (transferProgress u + len)
     (progressLog u ++ (if onProgress then [transferProgress u + len] else []))
     (fills u)).
Proof.
  unfold outgoingHandlerResume, liftResult, addTransferProgress, getTransferProgress,
    setTransferProgress, progress. run.
  destruct onProgress; cbn; [reflexivity |]. rewrite app_nil_r. reflexivity.
Qed.

Lemma outgoingHandlerResume_refused onProgress len e u :
  outgoingHandlerResume onProgress len (Throw e) u = (Throw e, u).
Proof. reflexivity. Qed.

Lemma uploadStream_checked svc size bufferSize maxBuffers onProgress s :
  0 < bufferSize <= FILE_RANGE_MAX_SIZE_BYTES ->
  0 <= maxBuffers ->
  uploadStream svc size bufferSize maxBuffers onProgress s =
  (_ <- create svc size ;;
   _ <- setTransferProgress 0 ;;
   ret (mkBufferScheduler bufferSize maxBuffers (outgoingHandler svc size onProgress)
          (outgoingParallelism maxBuffers))) s.
Proof.
  intros Hb Hm. unfold uploadStream. decide_tests. reflexivity.
Qed.

(** C4: [uploadStream] with a size of 10, buffers of 4 bytes and 4 buffers
    builds a scheduler with an outgoing parallelism of 3.  When the handlers
    of three filled buffers, recorded at the offsets 0, 4 and 8, are in
    flight together, each makes its size test before any of them has added
    its bytes: all three tests see a total of 0, all three range uploads
    are sent, and the handlers end without an error at a total of 12 bytes
    for a file declared with 10.  When the same three handlers run one after
    the other, the third is refused with a [RangeError] and sends nothing. *)
Theorem uploadStream_overlapping_handlers_exceed_size :
  exists sched s0,
    uploadStream (serviceOf 0) 10 4 4 false initial = (Ok sched, s0) /\
    calls s0 = [CtxCreate 10] /\
    bs_parallelism sched = 3 /\
    (exists pending s1 s2,
       startHandlers (serviceOf 0) 10 [(4, 0); (4, 4); (4, 8)] s0 = (Ok pending, s1) /\
       resumeHandlers false pending s1 = (Ok tt, s2) /\
       calls s2 = [CtxCreate 10;
                   CtxUploadRange (mkRange 0 (Some 4)) 4 (FilledBuffer 4);
                   CtxUploadRange (mkRange 4 (Some 4)) 4 (FilledBuffer 4);
                   CtxUploadRange (mkRange 8 (Some 4)) 4 (FilledBuffer 4)] /\
       transferProgress s2 = 12) /\
    (exists s1 s2 msg,
       bs_outgoingHandler sched 4 0 s0 = (Ok tt, s1) /\
       bs_outgoingHandler sched 4 4 s1 = (Ok tt, s2) /\
       transferProgress s2 = 8 /\
       bs_outgoingHandler sched 4 8 s2 = (Throw (RangeError msg), s2)).
Proof.
  exists (mkBufferScheduler 4 4 (outgoingHandler (serviceOf 0) 10 false) 3),
    (mkSt [CtxCreate 10] 0 [] []).
  split; [reflexivity |]. split; [reflexivity |]. split; [reflexivity |]. split.
  - exists [(4, Ok tt); (4, Ok tt); (4, Ok tt)],
      (mkSt [CtxCreate 10;
             CtxUploadRange (mkRange 0 (Some 4)) 4 (FilledBuffer 4);
             CtxUploadRange (mkRange 4 (Some 4)) 4 (FilledBuffer 4);
             CtxUploadRange (mkRange 8 (Some 4)) 4 (FilledBuffer 4)] 0 [] []),
      (mkSt [CtxCreate 10;
             CtxUploadRange (mkRange 0 (Some 4)) 4 (FilledBuffer 4);
             CtxUploadRange (mkRange 4 (Some 4)) 4 (FilledBuffer 4);
             CtxUploadRange (mkRange 8 (Some 4)) 4 (FilledBuffer 4)] 12 [] []).
    repeat split.
  - exists (mkSt [CtxCreate 10;
                  CtxUploadRange (mkRange 0 (Some 4)) 4 (FilledBuffer 4)] 4 [] []),
      (mkSt [CtxCreate 10;
             CtxUploadRange (mkRange 0 (Some 4)) 4 (FilledBuffer 4);
             CtxUploadRange (mkRange 4 (Some 4)) 4 (FilledBuffer 4)] 8 [] []).
    eexists. repeat split.
Qed.

(** C10: the check on [maxBuffers] in [uploadStream] throws for values
    below 0 only.  With a valid buffer size, a call with [maxBuffers = 0]
    is the creation of the file followed by the construction of a
    [BufferScheduler] with [maxBuffers = 0]; when the creation succeeds the
    scheduler is built, with 0 buffers and an outgoing parallelism of
    [Math.ceil((0 / 4) * 3) = 0].  Any value below 0 is rejected with the
    message "maxBuffers must be > 0." before anything is sent. *)
Theorem uploadStream_accepts_zero_maxBuffers :
  forall svc size bufferSize onProgress s,
    0 < bufferSize <= FILE_RANGE_MAX_SIZE_BYTES ->
    uploadStream svc size bufferSize 0 onProgress s =
      (_ <- create svc size ;;
       _ <- setTransferProgress 0 ;;
       ret (mkBufferScheduler bufferSize 0 (outgoingHandler svc size onProgress) 0)) s /\
    (0 <= size <= FILE_MAX_SIZE_BYTES ->
     svc_create svc size = Ok tt ->
     exists sched s',
       uploadStream svc size bufferSize 0 onProgress s = (Ok sched, s') /\
       calls s' = calls s ++ [CtxCreate size] /\
       bs_maxBuffers sched = 0 /\
       bs_parallelism sched = 0) /\
    (forall maxBuffers,
       maxBuffers < 0 ->
       uploadStream svc size bufferSize maxBuffers onProgress s
       = (Throw (RangeError "maxBuffers must be > 0."), s)).
Proof.
  intros svc size bufferSize onProgress s Hb.
  split; [| split].
  - rewrite uploadStream_checked by (assumption || lia). reflexivity.
  - intros Hsize Hcreate.
    rewrite uploadStream_checked by (assumption || lia).
    run. rewrite create_sends by assumption. rewrite Hcreate.
    unfold setTransferProgress. cbn.
    eexists. eexists. split; [reflexivity |]. cbn. repeat split.
  - intros maxBuffers Hneg. unfold uploadStream. decide_tests. reflexivity.
Qed.

Lemma uploadStream_accepts_zero_maxBuffers_witness :
  exists sched s',
    uploadStream (serviceOf 0) 10 4 0 false initial = (Ok sched, s') /\
    calls s' = calls initial ++ [CtxCreate 10] /\
    bs_maxBuffers sched = 0 /\
    bs_parallelism sched = 0.
Proof.
  assert (Hb : 0 < 4 <= FILE_RANGE_MAX_SIZE_BYTES) by (unfold FILE_RANGE_MAX_SIZE_BYTES; lia).
  destruct (uploadStream_accepts_zero_maxBuffers (serviceOf 0) 10 4 false initial Hb)
    as (_ & Hok & _).
  apply Hok; [unfold FILE_MAX_SIZE_BYTES; lia | reflexivity].
Defined.

(** *** The outgoing parallelism of [uploadStream] *)

Lemma outgoingParallelism_div maxBuffers :
  outgoingParallelism maxBuffers = - ((- (3 * maxBuffers)) / 4).
Proof.
  unfold outgoingParallelism, Math_ceil, Qceiling, Qfloor.
  cbn -[Z.mul Z.div Z.opp]. f_equal. f_equal. lia.
Qed.

Lemma outgoingParallelism_bounds maxBuffers :
  0 <= maxBuffers ->
  3 * maxBuffers <= 4 * outgoingParallelism maxBuffers < 3 * maxBuffers + 4.
Proof.
  intros H. rewrite outgoingParallelism_div.
  Z.div_mod_to_equations. lia.
Qed.

Lemma outgoingParallelism_smaller_from_4 maxBuffers :
  4 <= maxBuffers -> 1 <= outgoingParallelism maxBuffers < maxBuffers.
Proof.
  intros H. pose proof (outgoingParallelism_bounds maxBuffers). lia.
Qed.

(** C5: the parallelism handed to the scheduler is not smaller than
    [maxBuffers] for 1, 2 and 3 buffers.  With [maxBuffers = 2] the
    scheduler is built with an outgoing parallelism of
    [Math.ceil((2 / 4) * 3) = 2], and likewise 1 for 1 and 3 for 3, although
    the comment at the call asks for a value smaller than [maxBuffers]. *)
Theorem uploadStream_parallelism_not_smaller :
  (exists sched s',
     uploadStream (serviceOf 0) 10 4 2 false initial = (Ok sched, s') /\
     bs_maxBuffers sched = 2 /\
     bs_parallelism sched = 2 /\
     ~ bs_parallelism sched < bs_maxBuffers sched) /\
  outgoingParallelism 1 = 1 /\
  outgoingParallelism 2 = 2 /\
  outgoingParallelism 3 = 3.
Proof.
  split.
  - eexists. eexists. split; [reflexivity |]. cbn. repeat split. lia.
  - repeat split.
Qed.

(** ** The loops that fill a batch *)

Lemma forBlocks_operations n op b :
  operations (forBlocks n op b)
  = operations b ++ map (fun i => op (Z.of_nat i)) (seq 0 (Z.to_nat n)).
Proof.
  unfold forBlocks. generalize (seq 0 (Z.to_nat n)) as l. intros l. revert b.
  induction l as [| i l IH]; intros b; cbn [fold_left map].
  - now rewrite app_nil_r.
  - rewrite IH. cbn [addOperation operations]. now rewrite <- app_assoc.
Qed.

Lemma iterations_done from stop step :
  0 < step -> stop <= from -> iterations from stop step = O.
Proof.
  intros Hs Hd. unfold iterations.
  assert ((stop - from + step - 1) / step <= 0); [| lia].
  Z.div_mod_to_equations. nia.
Qed.

Lemma iterations_step from stop step :
  0 < step -> from < stop ->
  iterations from stop step = S (iterations (from + step) stop step).
Proof.
  intros Hs Hd. unfold iterations.
  replace (stop - from + step - 1) with ((stop - (from + step) + step - 1) + 1 * step) by lia.
  rewrite Z.div_add by lia.
  assert (0 <= (stop - (from + step) + step - 1) / step); [| lia].
  apply Z.div_pos; lia.
Qed.

(** With a positive step, a fuel of [stop - from] lets the loop run until
    its own test ends it: the operations added are those of its
    [iterations], and more fuel adds nothing. *)
Lemma forOffsets_operations fuel :
  forall from stop step op b,
    0 < step ->
    (Z.to_nat (stop - from) <= fuel)%nat ->
    operations (forOffsets fuel from stop step op b)
    = operations b
      ++ map (fun k => op (from + step * Z.of_nat k)) (seq 0 (iterations from stop step)).
Proof.
  induction fuel as [| fuel IH]; intros from stop step op b Hs Hf.
  - cbn [forOffsets]. rewrite iterations_done by lia. cbn. now rewrite app_nil_r.
  - cbn [forOffsets]. destruct (Z.ltb_spec from stop) as [Hlt | Hge].
    + rewrite IH by lia. rewrite (iterations_step from stop step) by lia.
      cbn [seq map addOperation operations]. rewrite <- app_assoc. cbn [app].
      f_equal. f_equal.
      * f_equal. lia.
      * rewrite <- seq_shift, map_map. apply map_ext. intros k. f_equal. lia.
    + rewrite iterations_done by lia. cbn. now rewrite app_nil_r.
Qed.

Lemma enqueueDownloads_operations off cnt rangeSize parallelism maxRetry onProgress :
  0 < rangeSize ->
  operations (enqueueDownloads off cnt rangeSize parallelism maxRetry onProgress)
  = map (fun k => DownloadChunk off cnt rangeSize maxRetry onProgress
                    (off + rangeSize * Z.of_nat k))
      (seq 0 (iterations off (off + cnt) rangeSize)).
Proof.
  intros Hr. unfold enqueueDownloads.
  rewrite forOffsets_operations by lia. reflexivity.
Qed.

(** ** [downloadToBuffer]: chunk requests *)

(** C2: a download of 10 bytes from offset 0 in ranges of 4 plans the
    chunks [0,4), [4,8), [8,10), fills these windows of the buffer and
    counts 4, 4 and 2 bytes of progress, but its three requests ask for 5, 5
    and 3 bytes: each asks for one byte more than its chunk, so the
    requested ranges overlap and run past offset + count.  With offset 10
    the chunk end is compared with [count] instead of [offset + count], and
    the chunks get the lengths 0, -4 and -8. *)
Theorem downloadToBuffer_requests_overrun :
  (exists batch s,
     downloadToBuffer (serviceOf 100) 10 0 (Some 10)
       (mkDownloadOptions (Some 4) None None true) initial = (Ok batch, s) /\
     map chunkOf (operations batch) = [(0, 4); (4, 4); (8, 2)] /\
     settle (serviceOf 100) true (operations batch) s
     = (Ok tt,
        mkSt [CtxDownload (Some (mkRange 0 (Some 5)));
              CtxDownload (Some (mkRange 4 (Some 5)));
              CtxDownload (Some (mkRange 8 (Some 3)))]
          10 [4; 8; 10]
          [mkFill 0 4; mkFill 4 8; mkFill 8 10])) /\
  (exists batch s,
     downloadToBuffer (serviceOf 100) 10 10 (Some 10)
       (mkDownloadOptions (Some 4) None None true) initial = (Ok batch, s) /\
     map chunkOf (operations batch) = [(10, 0); (14, -4); (18, -8)]).
Proof.
  split; eexists; eexists; (split; [cbv; reflexivity |]); [split |]; reflexivity.
Qed.

(** ** [downloadToBuffer]: a count of 0 *)

Lemma rangeSizeOf_positive rangeSize :
  0 <= rangeSizeOf rangeSize -> 0 < rangeSizeOf rangeSize.
Proof.
  unfold rangeSizeOf, falsy, the, FILE_RANGE_MAX_SIZE_BYTES.
  destruct rangeSize as [v |]; [| lia].
  destruct (Z.eqb_spec v 0); lia.
Qed.

(** What [downloadToBuffer] does when [count] is falsy and the other
    arguments pass their checks. *)
Lemma downloadToBuffer_unspecified svc bufferLength off cnt options s :
  falsy cnt = true ->
  0 <= rangeSizeOf (down_rangeSize options) ->
  0 <= off ->
  0 <= parallelismOf (down_parallelism options) ->
  downloadToBuffer svc bufferLength off cnt options s =
  (contentLength <- getProperties svc ;;
   if contentLength - off <? 0
   then throw (RangeError ("offset " ++ show off
                 ++ " shouldn't be larger than file size " ++ show contentLength))
   else if bufferLength <? contentLength - off
   then throw (RangeError
          ("The buffer's size should be equal to or larger than the request count of bytes: "
           ++ show (contentLength - off)))
   else
     _ <- setTransferProgress 0 ;;
     ret (enqueueDownloads off (contentLength - off)
            (rangeSizeOf (down_rangeSize options)) (parallelismOf (down_parallelism options))
            (down_maxRetryRequestsPerRange options) (down_progress options))) s.
Proof.
  intros Hc Hr Ho Hp. unfold downloadToBuffer.
  fold (rangeSizeOf (down_rangeSize options)).
  fold (parallelismOf (down_parallelism options)).
  rewrite Hc. decide_tests. cbn [negb andb].
  unfold getProperties. run.
  destruct (svc_getProperties svc) as [contentLength | e]; [| reflexivity].
  destruct (contentLength - off <? 0); reflexivity.
Qed.

Lemma downloadToBuffer_specified svc bufferLength off c options s :
  0 < c ->
  0 <= rangeSizeOf (down_rangeSize options) ->
  0 <= off ->
  0 <= parallelismOf (down_parallelism options) ->
  c <= bufferLength ->
  downloadToBuffer svc bufferLength off (Some c) options s =
  (Ok (enqueueDownloads off c
         (rangeSizeOf (down_rangeSize options)) (parallelismOf (down_parallelism options))
         (down_maxRetryRequestsPerRange options) (down_progress options)),
   mkSt (calls s) 0 (progressLog s) (fills s)).
Proof.
  intros Hc Hr Ho Hp Hb. unfold downloadToBuffer.
  fold (rangeSizeOf (down_rangeSize options)).
  fold (parallelismOf (down_parallelism options)).
  cbn [falsy the]. decide_tests. cbn [negb andb]. run. decide_tests. reflexivity.
Qed.

(** A count of 0 is not caught by the check "count option must be > 0",
    which rejects counts below 0 only; it is handled as a count that was not
    given.  When the other arguments pass their checks, the one request sent
    by the call itself is [getProperties]; with the file size it answers,
    the batch built is that of a call with a count of [fileSize - offset],
    whose operations start at [offset], [offset + rangeSize], ... below the
    size of the file. *)
Theorem downloadToBuffer_zero_count_is_unspecified :
  forall svc bufferLength off options s,
    let rangeSize := rangeSizeOf (down_rangeSize options) in
    let parallelism := parallelismOf (down_parallelism options) in
    downloadToBuffer svc bufferLength off (Some 0) options s
    = downloadToBuffer svc bufferLength off None options s /\
    (0 <= rangeSize -> 0 <= off -> 0 <= parallelism ->
     calls (snd (downloadToBuffer svc bufferLength off (Some 0) options s))
     = calls s ++ [CtxGetProperties] /\
     (forall fileSize,
        svc_getProperties svc = Ok fileSize ->
        off <= fileSize ->
        fileSize - off <= bufferLength ->
        let batch :=
          enqueueDownloads off (fileSize - off) rangeSize parallelism
            (down_maxRetryRequestsPerRange options) (down_progress options) in
        fst (downloadToBuffer svc bufferLength off (Some 0) options s) = Ok batch /\
        map (fun op => fst (chunkOf op)) (operations batch)
        = map (fun k => off + rangeSize * Z.of_nat k) (seq 0 (iterations off fileSize rangeSize)) /\
        (off < fileSize ->
         fst (downloadToBuffer svc bufferLength off (Some (fileSize - off)) options s)
         = Ok batch)) /\
     (forall c,
        c < 0 ->
        downloadToBuffer svc bufferLength off (Some c) options s
        = (Throw (RangeError "count option must be > 0"), s))).
Proof.
  intros svc bufferLength off options s rangeSize parallelism.
  split; [reflexivity |].
  intros Hr Ho Hp. split; [| split].
  - rewrite downloadToBuffer_unspecified by (reflexivity || assumption).
    unfold getProperties. run.
    destruct (svc_getProperties svc) as [contentLength | e]; [| reflexivity].
    repeat split_test; reflexivity.
  - intros fileSize Hsvc Hle Hbuf batch.
    split; [| split].
    + rewrite downloadToBuffer_unspecified by (reflexivity || assumption).
      unfold getProperties. run. rewrite Hsvc. decide_tests. reflexivity.
    + subst batch. rewrite enqueueDownloads_operations
        by (apply rangeSizeOf_positive; assumption).
      rewrite map_map. cbn [chunkOf fst].
      replace (off + (fileSize - off)) with fileSize by lia. reflexivity.
    + intros Hlt. rewrite downloadToBuffer_specified by (assumption || lia). reflexivity.
  - intros c Hc. unfold downloadToBuffer.
    fold (rangeSizeOf (down_rangeSize options)). fold rangeSize.
    cbn [falsy the]. decide_tests. reflexivity.
Qed.

Lemma downloadToBuffer_zero_count_is_unspecified_witness :
  calls (snd (downloadToBuffer (serviceOf 10) 4 6 (Some 0)
                (mkDownloadOptions (Some 4) None None true) initial))
  = [CtxGetProperties] /\
  fst (downloadToBuffer (serviceOf 10) 4 6 (Some 0)
         (mkDownloadOptions (Some 4) None None true) initial)
  = Ok (mkBatch 5 [DownloadChunk 6 4 4 None true 6]).
Proof.
  destruct (downloadToBuffer_zero_count_is_unspecified (serviceOf 10) 4 6
              (mkDownloadOptions (Some 4) None None true) initial) as [_ H].
  destruct H as (Hcalls & Hbatch & _);
    [cbn; lia | lia | cbn; unfold DEFAULT_HIGH_LEVEL_PARALLELISM; lia |].
  split; [exact Hcalls |].
  destruct (Hbatch 10) as (Hfst & _); [reflexivity | lia | lia |].
  exact Hfst.
Defined.

(** C9: on a file of 10 bytes, a download into a buffer of 4 bytes from
    offset 6 with a count of 0, in ranges of 4, is not refused for its
    count: as with a count that is not given, [getProperties] is sent first
    and the count becomes 4.  The one operation planned for the bytes
    [6, 10) then takes [count] itself, 4, for the end of its chunk instead
    of [offset + count], so that it asks [download] for [4 - 6 + 1 = -1]
    bytes; this is refused with a [RangeError] before any request, and the
    batch ends without a download and without a byte in the buffer. *)
Theorem downloadToBuffer_zero_count_from_offset_fails :
  exists batch s1,
    downloadToBuffer (serviceOf 10) 4 6 (Some 0)
      (mkDownloadOptions (Some 4) None None true) initial = (Ok batch, s1) /\
    downloadToBuffer (serviceOf 10) 4 6 None
      (mkDownloadOptions (Some 4) None None true) initial = (Ok batch, s1) /\
    calls s1 = [CtxGetProperties] /\
    operations batch = [DownloadChunk 6 4 4 None true 6] /\
    map chunkOf (operations batch) = [(6, -2)] /\
    exists msg,
      settle (serviceOf 10) true (operations batch) s1 = (Throw (RangeError msg), s1).
Proof.
  exists (mkBatch 5 [DownloadChunk 6 4 4 None true 6]), (mkSt [CtxGetProperties] 0 [] []).
  repeat split. eexists. reflexivity.
Qed.

(** ** The chunk plan of the uploads *)

Lemma numBlocks_div size rangeSize :
  0 < rangeSize -> numBlocks size rangeSize = (size - 1) / rangeSize + 1.
Proof.
  intros H. unfold numBlocks, Math_floor.
  destruct rangeSize as [| p | p]; try lia.
  unfold Qfloor, Qdiv, Qmult, Qinv, inject_Z. cbn [Qnum Qden].
  rewrite Z.mul_1_r, Pos.mul_1_l. reflexivity.
Qed.

Lemma ceil_div size rangeSize :
  0 < rangeSize ->
  Math_ceil (inject_Z size / inject_Z rangeSize) = - ((- size) / rangeSize).
Proof.
  intros H. unfold Math_ceil, Qceiling.
  destruct rangeSize as [| p | p]; try lia.
  unfold Qfloor, Qopp, Qdiv, Qmult, Qinv, inject_Z. cbn [Qnum Qden].
  rewrite Z.mul_1_r, Pos.mul_1_l. reflexivity.
Qed.

(** [Math.floor((size - 1) / rangeSize) + 1] is [Math.ceil(size / rangeSize)]. *)
Lemma numBlocks_ceil size rangeSize :
  0 < rangeSize ->
  numBlocks size rangeSize = Math_ceil (inject_Z size / inject_Z rangeSize).
Proof.
  intros H. rewrite numBlocks_div, ceil_div by assumption.
  Z.div_mod_to_equations. nia.
Qed.

Lemma numBlocks_bounds size rangeSize :
  0 < rangeSize -> 0 <= size ->
  0 <= numBlocks size rangeSize /\
  rangeSize * (numBlocks size rangeSize - 1) < size <= rangeSize * numBlocks size rangeSize.
Proof.
  intros Hr Hs. rewrite numBlocks_div by assumption.
  Z.div_mod_to_equations. nia.
Qed.

Lemma enqueueUploads_operations size rangeSize parallelism onProgress :
  operations (enqueueUploads size rangeSize parallelism onProgress)
  = map (fun i => UploadChunk size rangeSize (numBlocks size rangeSize) onProgress (Z.of_nat i))
      (seq 0 (Z.to_nat (numBlocks size rangeSize))).
Proof.
  unfold enqueueUploads. rewrite forBlocks_operations. reflexivity.
Qed.

Lemma enqueueUploads_plan size rangeSize parallelism onProgress :
  map chunkOf (operations (enqueueUploads size rangeSize parallelism onProgress))
  = map (fun i => uploadChunkRange size rangeSize (numBlocks size rangeSize) (Z.of_nat i))
      (seq 0 (Z.to_nat (numBlocks size rangeSize))).
Proof.
  rewrite enqueueUploads_operations, map_map. reflexivity.
Qed.

(** Chunk [i] of [n]: full ranges, then whatever is left for the last one. *)
Lemma uploadChunkRange_inner size rangeSize n i :
  i <> n - 1 -> uploadChunkRange size rangeSize n i = (rangeSize * i, rangeSize).
Proof.
  intros H. unfold uploadChunkRange. decide_tests. f_equal. lia.
Qed.

Lemma uploadChunkRange_last size rangeSize n :
  uploadChunkRange size rangeSize n (n - 1)
  = (rangeSize * (n - 1), size - rangeSize * (n - 1)).
Proof.
  unfold uploadChunkRange. decide_tests. reflexivity.
Qed.

Section Tiling.

Variables size rangeSize : Z.
Hypothesis rangeSize_positive : 0 < rangeSize.
Hypothesis size_nonnegative : 0 <= size.

Local Abbreviation n := (numBlocks size rangeSize).
Local Abbreviation bound := (boundary size rangeSize).

Lemma upload_chunks_tile_from k :
  forall a,
    (a + k = Z.to_nat n)%nat ->
    tiles (bound a)
      (map (fun i => uploadChunkRange size rangeSize n (Z.of_nat i)) (seq a k)) size.
Proof.
  pose proof (numBlocks_bounds size rangeSize rangeSize_positive size_nonnegative) as Hn.
  induction k as [| k IH]; intros a Ha; cbn [seq map tiles].
  - unfold boundary. decide_tests. reflexivity.
  - assert (Hlt : Z.of_nat a < n) by lia.
    assert (Hb : bound a = rangeSize * Z.of_nat a)
      by (unfold boundary; decide_tests; reflexivity).
    destruct (Z.eq_dec (Z.of_nat a) (n - 1)) as [Hlast | Hinner].
    + rewrite Hlast, uploadChunkRange_last. cbn [fst snd].
      rewrite Hb, Hlast. repeat split; try lia.
      replace (rangeSize * (n - 1) + (size - rangeSize * (n - 1))) with (bound (S a))
        by (unfold boundary; decide_tests; lia).
      apply IH. lia.
    + rewrite uploadChunkRange_inner by assumption. cbn [fst snd].
      rewrite Hb. repeat split; try lia.
      replace (rangeSize * Z.of_nat a + rangeSize) with (bound (S a))
        by (unfold boundary; decide_tests; lia).
      apply IH. lia.
Qed.

Lemma upload_chunks_tile parallelism onProgress :
  tiles 0 (map chunkOf (operations (enqueueUploads size rangeSize parallelism onProgress))) size.
Proof.
  pose proof (numBlocks_bounds size rangeSize rangeSize_positive size_nonnegative) as Hn.
  rewrite enqueueUploads_plan.
  replace 0 with (bound 0).
  - apply upload_chunks_tile_from. reflexivity.
  - unfold boundary. cbn [Z.of_nat].
    destruct (Z.ltb_spec 0 n); lia.
Qed.

Lemma upload_chunks_bounded parallelism onProgress :
  Forall (fun c => 0 <= fst c /\ 0 < snd c <= rangeSize)
    (map chunkOf (operations (enqueueUploads size rangeSize parallelism onProgress))).
Proof.
  pose proof (numBlocks_bounds size rangeSize rangeSize_positive size_nonnegative) as Hn.
  rewrite enqueueUploads_plan.
  apply Forall_forall. intros c Hc.
  apply in_map_iff in Hc. destruct Hc as (i & <- & Hi). apply in_seq in Hi.
  destruct (Z.eq_dec (Z.of_nat i) (n - 1)) as [Hlast | Hinner].
  - rewrite Hlast, uploadChunkRange_last. cbn [fst snd]. nia.
  - rewrite uploadChunkRange_inner by assumption. cbn [fst snd]. nia.
Qed.

Lemma upload_chunks_last parallelism onProgress :
  0 < size ->
  last (map chunkOf (operations (enqueueUploads size rangeSize parallelism onProgress))) (0, 0)
  = (rangeSize * (n - 1), size - (n - 1) * rangeSize).
Proof.
  intros Hpos.
  pose proof (numBlocks_bounds size rangeSize rangeSize_positive size_nonnegative) as Hn.
  rewrite enqueueUploads_plan.
  assert (Hn1 : 1 <= n) by nia.
  replace (Z.to_nat n) with (Z.to_nat (n - 1) + 1)%nat by lia.
  rewrite seq_app, map_app. cbn [seq map]. rewrite last_last.
  cbn [Nat.add]. rewrite Z2Nat.id by lia.
  rewrite uploadChunkRange_last. f_equal. lia.
Qed.

End Tiling.

(** *** What a tiling gives *)

Lemma tiles_le plan : forall from to, tiles from plan to -> from <= to.
Proof.
  induction plan as [| c rest IH]; intros from to H; cbn [tiles] in H.
  - lia.
  - destruct H as (_ & Hlen & Hrest). apply IH in Hrest. lia.
Qed.

Lemma tiles_total plan : forall from to, tiles from plan to -> totalLength plan = to - from.
Proof.
  induction plan as [| c rest IH]; intros from to H; cbn [tiles] in H; cbn [totalLength fold_right].
  - lia.
  - destruct H as (_ & _ & Hrest). apply IH in Hrest. unfold totalLength in Hrest. lia.
Qed.

Lemma tiles_inside plan :
  forall from to c b, tiles from plan to -> In c plan -> covers c b -> from <= b < to.
Proof.
  induction plan as [| c0 rest IH]; intros from to c b H Hin Hc; cbn [tiles] in H.
  - contradiction.
  - destruct H as (Hstart & Hlen & Hrest).
    pose proof (tiles_le _ _ _ Hrest) as Hle.
    destruct Hin as [-> | Hin].
    + unfold covers in Hc. lia.
    + pose proof (IH _ _ _ _ Hrest Hin Hc). lia.
Qed.

Lemma tiles_covered plan :
  forall from to b,
    tiles from plan to -> from <= b < to ->
    exists i c, nth_error plan i = Some c /\ covers c b.
Proof.
  induction plan as [| c0 rest IH]; intros from to b H Hb; cbn [tiles] in H.
  - lia.
  - destruct H as (Hstart & Hlen & Hrest).
    destruct (Z_lt_ge_dec b (from + snd c0)) as [Hin | Hout].
    + exists O, c0. split; [reflexivity |]. unfold covers. lia.
    + destruct (IH _ _ b Hrest) as (i & c & Hnth & Hc); [lia |].
      exists (S i), c. split; assumption.
Qed.

Lemma tiles_disjoint plan :
  forall from to b i j c c',
    tiles from plan to ->
    nth_error plan i = Some c -> nth_error plan j = Some c' ->
    covers c b -> covers c' b -> i = j.
Proof.
  induction plan as [| c0 rest IH]; intros from to b i j c c' H Hi Hj Hc Hc'; cbn [tiles] in H.
  - destruct i; discriminate.
  - destruct H as (Hstart & Hlen & Hrest).
    destruct i as [| i], j as [| j]; cbn [nth_error] in Hi, Hj.
    + reflexivity.
    + injection Hi as <-. apply nth_error_In in Hj.
      pose proof (tiles_inside _ _ _ _ b Hrest Hj Hc'). unfold covers in Hc. lia.
    + injection Hj as <-. apply nth_error_In in Hi.
      pose proof (tiles_inside _ _ _ _ b Hrest Hi Hc). unfold covers in Hc'. lia.
    + f_equal. eapply IH; eassumption.
Qed.

Lemma totalLength_perm l l' : Permutation l l' -> totalLength l = totalLength l'.
Proof.
  unfold totalLength. induction 1; cbn [fold_right]; lia.
Qed.

(** *** Running totals of positive lengths *)

Lemma sumOf_lengths plan : sumOf (map snd plan) = totalLength plan.
Proof.
  unfold sumOf, totalLength. induction plan as [| c rest IH]; cbn [map fold_right]; lia.
Qed.

Lemma sumOf_nonneg lengths : Forall (fun n => 0 < n) lengths -> 0 <= sumOf lengths.
Proof.
  unfold sumOf. induction 1; cbn [fold_right]; lia.
Qed.

Lemma runningTotals_above lengths :
  forall acc, Forall (fun n => 0 < n) lengths -> Forall (fun v => acc < v) (runningTotals acc lengths).
Proof.
  induction lengths as [| n rest IH]; intros acc H; cbn [runningTotals].
  - constructor.
  - inversion H as [| ? ? Hn Hrest]; subst. constructor; [lia |].
    eapply Forall_impl; [| apply IH; assumption]. cbn. intros v Hv. lia.
Qed.

Lemma runningTotals_increasing lengths :
  forall acc, Forall (fun n => 0 < n) lengths -> StronglySorted Z.le (runningTotals acc lengths).
Proof.
  induction lengths as [| n rest IH]; intros acc H; cbn [runningTotals].
  - constructor.
  - inversion H as [| ? ? Hn Hrest]; subst. constructor; [apply IH; assumption |].
    eapply Forall_impl; [| apply runningTotals_above; assumption]. cbn. intros v Hv. lia.
Qed.

Lemma runningTotals_last lengths :
  forall acc d, lengths <> [] -> last (runningTotals acc lengths) d = acc + sumOf lengths.
Proof.
  unfold sumOf.
  induction lengths as [| n rest IH]; intros acc d Hne; [congruence |].
  destruct rest as [| m rest'].
  - cbn. lia.
  - change (runningTotals acc (n :: m :: rest'))
      with ((acc + n) :: runningTotals (acc + n) (m :: rest')).
    change (last ((acc + n) :: runningTotals (acc + n) (m :: rest')) d)
      with (last (runningTotals (acc + n) (m :: rest')) d).
    rewrite IH by discriminate. cbn [fold_right]. lia.
Qed.

Lemma runningTotals_final_once lengths :
  forall acc,
    lengths <> [] ->
    Forall (fun n => 0 < n) lengths ->
    count_occ Z.eq_dec (runningTotals acc lengths) (acc + sumOf lengths) = 1%nat.
Proof.
  induction lengths as [| n rest IH]; intros acc Hne H; [congruence |].
  inversion H as [| ? ? Hn Hrest]; subst.
  cbn [runningTotals]. unfold sumOf. cbn [fold_right]. fold (sumOf rest).
  destruct rest as [| m rest'].
  - cbn [runningTotals sumOf fold_right].
    rewrite count_occ_cons_eq by lia. reflexivity.
  - assert (0 < sumOf (m :: rest')).
    { inversion Hrest as [| ? ? Hm Hrest']; subst.
      pose proof (sumOf_nonneg _ Hrest'). unfold sumOf in *. cbn [fold_right]. lia. }
    rewrite count_occ_cons_neq by lia.
    replace (acc + (n + sumOf (m :: rest'))) with ((acc + n) + sumOf (m :: rest')) by lia.
    apply IH; [discriminate | assumption].
Qed.

(** *** Running the upload operations *)

Lemma runOperation_upload svc isNode onProgress op t :
  uploadable onProgress op ->
  runOperation svc isNode op t =
  match svc_uploadRange svc (mkRange (fst (chunkOf op)) (Some (snd (chunkOf op))))
          (snd (chunkOf op)) with
  | Ok _ =>
      (Ok tt,
       mkSt (calls t ++ [uploadCall (chunkOf op)])
         (transferProgress t + snd (chunkOf op))
         (progressLog t ++ (if onProgress then [transferProgress t + snd (chunkOf op)] else []))
         (fills t))
  | Throw e =>
      (Throw e,
       mkSt (calls t ++ [uploadCall (chunkOf op)])
         (transferProgress t) (progressLog t) (fills t))
  end.
Proof.
  intros ((size & rangeSize & n & i & ->) & Hstart & Hlen).
  cbn [chunkOf] in *. cbn [runOperation].
  destruct (uploadChunkRange size rangeSize n i) as [start contentLength].
  cbn [fst snd] in *. run.
  rewrite uploadRange_sends by assumption.
  unfold uploadCall. cbn [fst snd].
  destruct (svc_uploadRange svc _ contentLength) as [[] | e]; [| reflexivity].
  unfold addTransferProgress, getTransferProgress, setTransferProgress, progress. run.
  destruct onProgress; cbn; [reflexivity |].
  rewrite app_nil_r. reflexivity.
Qed.

Lemma runOperation_upload_calls svc isNode onProgress op t :
  uploadable onProgress op ->
  calls (snd (runOperation svc isNode op t)) = calls t ++ [uploadCall (chunkOf op)].
Proof.
  intros H. rewrite (runOperation_upload svc isNode onProgress op t H).
  destruct (svc_uploadRange svc _ _); reflexivity.
Qed.

Lemma settle_uploads svc isNode order :
  (forall r len, svc_uploadRange svc r len = Ok tt) ->
  Forall (uploadable true) order ->
  forall t,
    settle svc isNode order t =
    (Ok tt,
     mkSt (calls t ++ map (fun op => uploadCall (chunkOf op)) order)
       (transferProgress t + sumOf (map (fun op => snd (chunkOf op)) order))
       (progressLog t
        ++ runningTotals (transferProgress t) (map (fun op => snd (chunkOf op)) order))
       (fills t)).
Proof.
  intros Hsvc. induction 1 as [| op rest Hop Hrest IH]; intros t.
  - cbn. rewrite !app_nil_r, Z.add_0_r. destruct t; reflexivity.
  - cbn [settle]. unfold bind at 1.
    rewrite (runOperation_upload svc isNode true op t Hop), Hsvc, IH.
    cbn [calls transferProgress progressLog fills map runningTotals].
    unfold sumOf. cbn [fold_right]. rewrite <- !app_assoc. cbn [app].
    f_equal. f_equal. lia.
Qed.

Lemma enqueueUploads_uploadable size rangeSize parallelism onProgress :
  0 <= size ->
  0 < rangeSize <= FILE_RANGE_MAX_SIZE_BYTES ->
  Forall (uploadable onProgress) (operations (enqueueUploads size rangeSize parallelism onProgress)).
Proof.
  intros Hs Hr.
  assert (Hb := upload_chunks_bounded size rangeSize (proj1 Hr) Hs parallelism onProgress).
  rewrite Forall_map in Hb.
  rewrite enqueueUploads_operations in *.
  rewrite Forall_map in *.
  eapply Forall_impl; [| exact Hb]. intros i Hi. cbn beta in Hi.
  split; [do 4 eexists; reflexivity | lia].
Qed.

(** *** The orchestrators up to the loop *)

Lemma UploadSeekableBlob_same svc size options s :
  UploadSeekableBlob svc size options s = uploadResetableStream svc size options s.
Proof. reflexivity. Qed.

Lemma uploadResetableStream_checked svc size options s :
  0 <= rangeSizeOf (up_rangeSize options) <= FILE_RANGE_MAX_SIZE_BYTES ->
  0 <= parallelismOf (up_parallelism options) ->
  uploadResetableStream svc size options s =
  (_ <- create svc size ;;
   _ <- setTransferProgress 0 ;;
   ret (enqueueUploads size (rangeSizeOf (up_rangeSize options))
          (parallelismOf (up_parallelism options)) (up_progress options))) s.
Proof.
  intros Hr Hp. unfold uploadResetableStream.
  fold (rangeSizeOf (up_rangeSize options)).
  fold (parallelismOf (up_parallelism options)).
  decide_tests. reflexivity.
Qed.

Lemma uploadResetableStream_enqueues svc size options s :
  0 <= rangeSizeOf (up_rangeSize options) <= FILE_RANGE_MAX_SIZE_BYTES ->
  0 <= parallelismOf (up_parallelism options) ->
  0 <= size <= FILE_MAX_SIZE_BYTES ->
  svc_create svc size = Ok tt ->
  uploadResetableStream svc size options s =
  (Ok (enqueueUploads size (rangeSizeOf (up_rangeSize options))
         (parallelismOf (up_parallelism options)) (up_progress options)),
   mkSt (calls s ++ [CtxCreate size]) 0 (progressLog s) (fills s)).
Proof.
  intros Hr Hp Hs Hc. rewrite uploadResetableStream_checked by assumption.
  run. rewrite create_sends by assumption. rewrite Hc. reflexivity.
Qed.

Lemma rangeSizeOf_given rangeSize :
  0 < rangeSize -> rangeSizeOf (Some rangeSize) = rangeSize.
Proof.
  intros H. unfold rangeSizeOf, falsy, the. decide_tests. reflexivity.
Qed.

Lemma uploadResetableStream_ok_inv svc size options s batch t :
  uploadResetableStream svc size options s = (Ok batch, t) ->
  0 <= rangeSizeOf (up_rangeSize options) <= FILE_RANGE_MAX_SIZE_BYTES /\
  0 <= parallelismOf (up_parallelism options) /\
  0 <= size <= FILE_MAX_SIZE_BYTES /\
  batch = enqueueUploads size (rangeSizeOf (up_rangeSize options))
            (parallelismOf (up_parallelism options)) (up_progress options) /\
  t = mkSt (calls s ++ [CtxCreate size]) 0 (progressLog s) (fills s).
Proof.
  unfold uploadResetableStream.
  fold (rangeSizeOf (up_rangeSize options)).
  fold (parallelismOf (up_parallelism options)).
  rewrite Z.gtb_ltb.
  destruct (Z.ltb_spec (rangeSizeOf (up_rangeSize options)) 0); [discriminate |].
  destruct (Z.ltb_spec FILE_RANGE_MAX_SIZE_BYTES (rangeSizeOf (up_rangeSize options)));
    [discriminate |].
  destruct (Z.ltb_spec (parallelismOf (up_parallelism options)) 0); [discriminate |].
  cbn [orb]. unfold create. rewrite Z.gtb_ltb.
  destruct (Z.ltb_spec size 0); [discriminate |].
  destruct (Z.ltb_spec FILE_MAX_SIZE_BYTES size); [discriminate |].
  cbn [orb]. run.
  destruct (svc_create svc size) as [[] | e]; [| discriminate].
  unfold setTransferProgress. cbn [calls transferProgress progressLog fills].
  intros Heq. injection Heq as <- <-.
  repeat split; (lia || reflexivity).
Qed.

(** ** The chunked uploads *)

(** C1: for a size of 0 or more and a range size between 1 and
    [FILE_RANGE_MAX_SIZE_BYTES], the loop of [uploadResetableStream] and
    [UploadSeekableBlob] adds [Math.ceil(size / rangeSize)] operations to the
    batch.  Their chunks tile [0, size): the first starts at 0, each next one
    starts where the previous one ends, the last one ends at [size], so that
    every byte below [size] lies in exactly one chunk and no chunk reaches
    outside.  No chunk is empty or longer than [rangeSize], the lengths add
    up to [size], and the last chunk has [size - (chunks - 1) * rangeSize]
    bytes.  Each operation, when run, sends the one range upload of its
    chunk.  Both transfers reach the loop, and return this batch, when the
    size is at most [FILE_MAX_SIZE_BYTES], the parallelism is not negative
    and the file could be created. *)
Theorem chunked_upload_plan :
  forall svc isNode size rangeSize options s,
    0 <= size ->
    0 < rangeSize <= FILE_RANGE_MAX_SIZE_BYTES ->
    up_rangeSize options = Some rangeSize ->
    let batch :=
      enqueueUploads size rangeSize (parallelismOf (up_parallelism options))
        (up_progress options) in
    let plan := map chunkOf (operations batch) in
    let chunks := Z.of_nat (List.length plan) in
    (size <= FILE_MAX_SIZE_BYTES ->
     0 <= parallelismOf (up_parallelism options) ->
     svc_create svc size = Ok tt ->
     fst (uploadResetableStream svc size options s) = Ok batch /\
     fst (UploadSeekableBlob svc size options s) = Ok batch) /\
    chunks = Math_ceil (inject_Z size / inject_Z rangeSize) /\
    tiles 0 plan size /\
    (forall b,
       (0 <= b < size <-> exists i c, nth_error plan i = Some c /\ covers c b) /\
       (forall i j c c',
          nth_error plan i = Some c -> nth_error plan j = Some c' ->
          covers c b -> covers c' b -> i = j)) /\
    Forall (fun c => 0 < snd c <= rangeSize) plan /\
    totalLength plan = size /\
    (0 < size ->
     last plan (0, 0) = (rangeSize * (chunks - 1), size - (chunks - 1) * rangeSize)) /\
    (forall op,
       In op (operations batch) ->
       forall t, calls (snd (runOperation svc isNode op t)) = calls t ++ [uploadCall (chunkOf op)]).
Proof.
  intros svc isNode size rangeSize options s Hsize Hrange Hopt batch plan chunks.
  assert (Hpos : 0 < rangeSize) by lia.
  pose proof (numBlocks_bounds size rangeSize Hpos Hsize) as Hn.
  assert (Htiles : tiles 0 plan size) by (apply upload_chunks_tile; assumption).
  assert (Hchunks : chunks = numBlocks size rangeSize).
  { subst chunks plan batch. rewrite enqueueUploads_plan, length_map, length_seq. lia. }
  split; [| split; [| split; [| split; [| split; [| split; [| split]]]]]].
  - intros Hmax Hpar Hcreate.
    change (UploadSeekableBlob svc size options s)
      with (uploadResetableStream svc size options s).
    assert (Hrs : rangeSizeOf (up_rangeSize options) = rangeSize)
      by (rewrite Hopt; apply rangeSizeOf_given; assumption).
    rewrite uploadResetableStream_enqueues by (rewrite ?Hrs; assumption || lia).
    rewrite Hrs. split; reflexivity.
  - rewrite Hchunks. apply numBlocks_ceil. assumption.
  - exact Htiles.
  - intros b. split; [split |].
    + intros Hb. eapply tiles_covered; [exact Htiles | lia].
    + intros (i & c & Hnth & Hc). apply nth_error_In in Hnth.
      eapply tiles_inside; eassumption.
    + intros i j c c'. apply tiles_disjoint with (from := 0) (to := size). exact Htiles.
  - eapply Forall_impl; [| apply upload_chunks_bounded; assumption].
    cbn beta. intros c Hc. lia.
  - rewrite (tiles_total plan 0 size Htiles). lia.
  - intros Hlt. rewrite Hchunks. subst plan batch.
    rewrite upload_chunks_last by assumption. reflexivity.
  - intros op Hin t.
    apply runOperation_upload_calls with (onProgress := up_progress options).
    pose proof (enqueueUploads_uploadable size rangeSize
                  (parallelismOf (up_parallelism options)) (up_progress options) Hsize Hrange)
      as Hall.
    rewrite Forall_forall in Hall. apply Hall. exact Hin.
Qed.

Lemma chunked_upload_plan_witness :
  let batch := enqueueUploads 10 4 5 true in
  fst (uploadResetableStream (serviceOf 0) 10 (mkUploadOptions (Some 4) None true) initial)
  = Ok batch /\
  Z.of_nat (List.length (map chunkOf (operations batch))) = Math_ceil (inject_Z 10 / inject_Z 4) /\
  tiles 0 (map chunkOf (operations batch)) 10 /\
  totalLength (map chunkOf (operations batch)) = 10.
Proof.
  assert (Hs : 0 <= 10) by lia.
  assert (Hr : 0 < 4 <= FILE_RANGE_MAX_SIZE_BYTES) by (unfold FILE_RANGE_MAX_SIZE_BYTES; lia).
  destruct (chunked_upload_plan (serviceOf 0) true 10 4 (mkUploadOptions (Some 4) None true)
              initial Hs Hr eq_refl)
    as (Hrun & Hcount & Htiles & _ & _ & Htotal & _).
  destruct Hrun as [Hrun _].
  - unfold FILE_MAX_SIZE_BYTES. lia.
  - cbn. unfold DEFAULT_HIGH_LEVEL_PARALLELISM. lia.
  - reflexivity.
  - repeat split; assumption.
Defined.

(** C7: after a chunked upload has filled its batch, let the operations
    settle in any order, all range uploads being accepted.  The progress
    callback is then called once per chunk, each time with the bytes of all
    chunks settled so far; these values never decrease along the calls; and
    at the end the transferred total is [size], a value that the callback
    has received last and, for a file that is not empty, exactly once. *)
Theorem upload_progress_cumulative :
  forall svc isNode size options s batch t order,
    up_progress options = true ->
    (forall r len, svc_uploadRange svc r len = Ok tt) ->
    uploadResetableStream svc size options s = (Ok batch, t) \/
    UploadSeekableBlob svc size options s = (Ok batch, t) ->
    Permutation order (operations batch) ->
    let reported := runningTotals 0 (map (fun op => snd (chunkOf op)) order) in
    exists t',
      settle svc isNode order t = (Ok tt, t') /\
      progressLog t' = progressLog s ++ reported /\
      List.length reported = List.length (operations batch) /\
      StronglySorted Z.le reported /\
      transferProgress t' = size /\
      (0 < size -> last reported 0 = size /\ count_occ Z.eq_dec reported size = 1%nat).
Proof.
  intros svc isNode size options s batch t order Hprog Hsvc Hrun Hperm reported.
  assert (Hrun' : uploadResetableStream svc size options s = (Ok batch, t))
    by (destruct Hrun as [H | H]; exact H).
  clear Hrun.
  apply uploadResetableStream_ok_inv in Hrun'.
  destruct Hrun' as (Hrange & Hpar & Hsize & Hbatch & Ht).
  assert (Hpos : 0 < rangeSizeOf (up_rangeSize options))
    by (apply rangeSizeOf_positive; lia).
  rewrite Hprog in *.
  assert (Hall : Forall (uploadable true) order).
  { apply (Permutation_Forall (Permutation_sym Hperm)).
    rewrite Hbatch. apply enqueueUploads_uploadable; lia. }
  assert (Hlens : Forall (fun n => 0 < n) (map (fun op => snd (chunkOf op)) order)).
  { rewrite Forall_map. eapply Forall_impl; [| exact Hall].
    intros op (_ & _ & Hlen). lia. }
  assert (Hsum : sumOf (map (fun op => snd (chunkOf op)) order) = size).
  { rewrite <- map_map, sumOf_lengths.
    rewrite (totalLength_perm (map chunkOf order) (map chunkOf (operations batch)))
      by (apply Permutation_map; exact Hperm).
    rewrite Hbatch.
    rewrite (tiles_total _ 0 size); [lia |].
    apply upload_chunks_tile; lia. }
  eexists. split; [apply settle_uploads; assumption |].
  rewrite Ht. cbn [progressLog transferProgress].
  fold reported. rewrite Hsum.
  split; [reflexivity |]. split; [| split; [| split]].
  - subst reported.
    rewrite <- (Permutation_length Hperm).
    clear. generalize 0 at 1. induction order as [| op rest IH]; intros acc; cbn.
    + reflexivity.
    + f_equal. apply IH.
  - apply runningTotals_increasing. exact Hlens.
  - lia.
  - intros Hsize_pos.
    assert (Hne : map (fun op => snd (chunkOf op)) order <> []).
    { intros Hnil. rewrite Hnil in Hsum. cbn in Hsum. lia. }
    split.
    + subst reported. rewrite runningTotals_last by exact Hne. lia.
    + pose proof (runningTotals_final_once _ 0 Hne Hlens) as Honce.
      rewrite Hsum in Honce. exact Honce.
Qed.

(** The 10 MB upload in ranges of 4 MB: three chunks of 4 MB, 4 MB and 2 MB
    at the offsets 0, 4194304 and 8388608; here the last chunk settles
    first. *)
Lemma upload_progress_cumulative_witness :
  let options := mkUploadOptions (Some 4194304) (Some 3) true in
  let batch := enqueueUploads 10485760 4194304 3 true in
  let order :=
    [UploadChunk 10485760 4194304 3 true 2;
     UploadChunk 10485760 4194304 3 true 0;
     UploadChunk 10485760 4194304 3 true 1] in
  map chunkOf (operations batch) = [(0, 4194304); (4194304, 4194304); (8388608, 2097152)] /\
  let reported := runningTotals 0 (map (fun op => snd (chunkOf op)) order) in
  reported = [2097152; 6291456; 10485760] /\
  exists t',
    settle (serviceOf 0) true order (mkSt [CtxCreate 10485760] 0 [] []) = (Ok tt, t') /\
    progressLog t' = progressLog initial ++ reported /\
    List.length reported = List.length (operations batch) /\
    StronglySorted Z.le reported /\
    transferProgress t' = 10485760 /\
    (0 < 10485760 ->
     last reported 0 = 10485760 /\ count_occ Z.eq_dec reported 10485760 = 1%nat).
Proof.
  intros options batch order.
  split; [reflexivity |].
  split; [reflexivity |].
  apply (upload_progress_cumulative (serviceOf 0) true 10485760 options initial batch
           (mkSt [CtxCreate 10485760] 0 [] []) order).
  - reflexivity.
  - intros r len. reflexivity.
  - left. reflexivity.
  - apply (Permutation_cons_append
             [UploadChunk 10485760 4194304 3 true 0; UploadChunk 10485760 4194304 3 true 1]
             (UploadChunk 10485760 4194304 3 true 2)).
Defined.

(** ** [download]: the request and the response *)

Lemma download_refuses_range svc isNode off cnt md5 maxRetry s e :
  md5 && (off =? 0) && (match cnt with None => true | Some _ => false end) = false ->
  requestedRange off cnt = Throw e ->
  download svc isNode off cnt md5 maxRetry s = (Throw e, s).
Proof.
  intros Hmd5. unfold requestedRange, download, liftResult. rewrite Hmd5.
  destruct ((off =? 0) && falsy cnt); [discriminate |].
  destruct (rangeToString (mkRange off cnt)) as [r | e']; [discriminate |].
  intros Heq. injection Heq as <-. reflexivity.
Qed.

(** Once the range is accepted, [download] sends its request and goes on
    from the answer. *)
Lemma download_requests svc isNode off cnt md5 maxRetry s range :
  md5 && (off =? 0) && (match cnt with None => true | Some _ => false end) = false ->
  requestedRange off cnt = Ok range ->
  download svc isNode off cnt md5 maxRetry s =
  (match svc_download svc range with
   | Throw e => Throw e
   | Ok res =>
       if negb isNode then Ok (BrowserResponse res)
       else
         match res with
         | None =>
             Throw (RangeError
                      "File download response doesn't contain valid content length header")
         | Some contentLength =>
             Ok (NodeResponse
                   (mkFileDownloadResponse (reopen svc off contentLength) off contentLength
                      match maxRetry with
                      | None => DEFAULT_MAX_DOWNLOAD_RETRY_REQUESTS
                      | Some v => if v <? 0 then DEFAULT_MAX_DOWNLOAD_RETRY_REQUESTS else v
                      end))
         end
   end,
   mkSt (calls s ++ [CtxDownload range]) (transferProgress s) (progressLog s) (fills s)).
Proof.
  intros Hmd5 Hrange.
  assert (Hsame : forall (k : option Range -> M DownloadResult),
            ((range' <-
                (if (off =? 0) && falsy cnt then ret None
                 else r <- liftResult (rangeToString (mkRange off cnt)) ;; ret (Some r)) ;;
              k range') s) = k range s).
  { intros k. unfold requestedRange in Hrange. unfold liftResult. run.
    destruct ((off =? 0) && falsy cnt).
    - injection Hrange as <-. reflexivity.
    - destruct (rangeToString (mkRange off cnt)) as [r | e]; [| discriminate].
      injection Hrange as <-. reflexivity. }
  unfold download. rewrite Hmd5. rewrite Hsame. run.
  destruct (svc_download svc range) as [[contentLength |] | e]; destruct isNode; reflexivity.
Qed.

Lemma requestedRange_valid off cnt :
  0 <= off ->
  (forall c, cnt = Some c -> 0 <= c) ->
  requestedRange off cnt
  = Ok (if (off =? 0) && falsy cnt then None
        else Some (mkRange off (if falsy cnt then None else cnt))).
Proof.
  intros Ho Hc. unfold requestedRange.
  destruct ((off =? 0) && falsy cnt); [reflexivity |].
  destruct (falsy cnt) eqn:Hf.
  - rewrite rangeToString_accepts_open by assumption. reflexivity.
  - destruct cnt as [c |]; [| discriminate]. cbn [falsy] in Hf.
    apply Z.eqb_neq in Hf. specialize (Hc c eq_refl).
    rewrite rangeToString_accepts by lia. reflexivity.
Qed.

(** X1: [download] refuses [rangeGetContentMD5] for offset 0 with an
    undefined count, and otherwise an offset below 0 or a count below 0, by
    a [RangeError] raised before anything is sent.  In every other case it
    sends exactly one request, whatever the answer: for the whole file when
    the offset is 0 and the count is undefined or 0, for everything from the
    offset on when the offset is above 0 and the count is undefined or 0,
    and for [count] bytes from the offset when the count is above 0. *)
Theorem download_request_shape :
  forall svc isNode off cnt md5 maxRetry s,
    (md5 = true -> off = 0 -> cnt = None ->
     exists msg, download svc isNode off cnt md5 maxRetry s = (Throw (RangeError msg), s)) /\
    (md5 && (off =? 0) && (match cnt with None => true | Some _ => false end) = false ->
     (off < 0 \/ (exists c, cnt = Some c /\ c < 0) ->
      exists msg, download svc isNode off cnt md5 maxRetry s = (Throw (RangeError msg), s)) /\
     (off = 0 -> falsy cnt = true ->
      calls (snd (download svc isNode off cnt md5 maxRetry s)) = calls s ++ [CtxDownload None]) /\
     (0 < off -> falsy cnt = true ->
      calls (snd (download svc isNode off cnt md5 maxRetry s))
      = calls s ++ [CtxDownload (Some (mkRange off None))]) /\
     (forall c,
        0 <= off -> cnt = Some c -> 0 < c ->
        calls (snd (download svc isNode off cnt md5 maxRetry s))
        = calls s ++ [CtxDownload (Some (mkRange off (Some c)))])).
Proof.
  intros svc isNode off cnt md5 maxRetry s. split.
  - intros -> -> ->. unfold download. cbn. eexists; reflexivity.
  - intros Hmd5.
    assert (Hcalls : forall range,
              requestedRange off cnt = Ok range ->
              calls (snd (download svc isNode off cnt md5 maxRetry s))
              = calls s ++ [CtxDownload range]).
    { intros range Hrange.
      rewrite (download_requests svc isNode off cnt md5 maxRetry s range Hmd5 Hrange).
      reflexivity. }
    split; [| split; [| split]].
    + intros Hbad.
      assert (Hne : (off =? 0) && falsy cnt = false).
      { destruct Hbad as [Hoff | (c & -> & Hc)].
        - rewrite (proj2 (Z.eqb_neq off 0)) by lia. reflexivity.
        - cbn [falsy]. rewrite (proj2 (Z.eqb_neq c 0)) by lia. apply andb_false_r. }
      destruct (rangeToString_rejects off cnt Hbad) as [msg Hmsg].
      exists msg. apply download_refuses_range; [exact Hmd5 |].
      unfold requestedRange. rewrite Hne, Hmsg. reflexivity.
    + intros -> Hf. apply Hcalls. unfold requestedRange. rewrite Hf. reflexivity.
    + intros Hoff Hf. apply Hcalls.
      rewrite requestedRange_valid.
      * rewrite Hf, (proj2 (Z.eqb_neq off 0)) by lia. reflexivity.
      * lia.
      * intros c ->. cbn [falsy] in Hf. apply Z.eqb_eq in Hf. lia.
    + intros c Hoff -> Hc. apply Hcalls.
      rewrite requestedRange_valid.
      * cbn [falsy]. rewrite (proj2 (Z.eqb_neq c 0)) by lia.
        rewrite andb_false_r. reflexivity.
      * exact Hoff.
      * intros c' Heq. injection Heq as <-. lia.
Qed.

Lemma download_request_shape_witness :
  calls (snd (download (serviceOf 100) true 0 (Some 0) true None initial))
  = calls initial ++ [CtxDownload None] /\
  calls (snd (download (serviceOf 100) true 7 (Some 0) false None initial))
  = calls initial ++ [CtxDownload (Some (mkRange 7 None))] /\
  (exists msg,
     download (serviceOf 100) true 5 (Some (-3)) false None initial
     = (Throw (RangeError msg), initial)) /\
  exists msg,
    download (serviceOf 100) true 0 None true None initial = (Throw (RangeError msg), initial).
Proof.
  split; [| split; [| split]].
  - destruct (download_request_shape (serviceOf 100) true 0 (Some 0) true None initial)
      as [_ H].
    destruct H as (_ & H & _); [reflexivity |]. apply H; reflexivity.
  - destruct (download_request_shape (serviceOf 100) true 7 (Some 0) false None initial)
      as [_ H].
    destruct H as (_ & _ & H & _); [reflexivity |]. apply H; [lia | reflexivity].
  - destruct (download_request_shape (serviceOf 100) true 5 (Some (-3)) false None initial)
      as [_ H].
    destruct H as (H & _); [reflexivity |]. apply H.
    right. exists (-3). split; [reflexivity | lia].
  - destruct (download_request_shape (serviceOf 100) true 0 None true None initial)
      as [H _].
    apply H; reflexivity.
Defined.

(** X2: what [download] returns once its request is sent, for an offset of
    0 or more and a count that is not negative.  An error of the service is
    passed on.  In browsers the response is returned as it is, with or
    without a content length.  On Node.js a response without a content
    length is a [RangeError], raised after the request was sent; a response
    with one yields a response object built with the offset asked for, that
    content length, and a retry budget that is never negative: the given
    [maxRetryRequests] when it is 0 or more, and
    [DEFAULT_MAX_DOWNLOAD_RETRY_REQUESTS] when it is undefined or negative. *)
Theorem download_response :
  forall svc off cnt md5 maxRetry s,
    md5 && (off =? 0) && (match cnt with None => true | Some _ => false end) = false ->
    0 <= off ->
    (forall c, cnt = Some c -> 0 <= c) ->
    let range := if (off =? 0) && falsy cnt then None
                 else Some (mkRange off (if falsy cnt then None else cnt)) in
    let sent := mkSt (calls s ++ [CtxDownload range])
                  (transferProgress s) (progressLog s) (fills s) in
    (forall e isNode,
       svc_download svc range = Throw e ->
       download svc isNode off cnt md5 maxRetry s = (Throw e, sent)) /\
    (forall res,
       svc_download svc range = Ok res ->
       download svc false off cnt md5 maxRetry s = (Ok (BrowserResponse res), sent)) /\
    (svc_download svc range = Ok None ->
     exists msg, download svc true off cnt md5 maxRetry s = (Throw (RangeError msg), sent)) /\
    (forall contentLength,
       svc_download svc range = Ok (Some contentLength) ->
       exists r,
         download svc true off cnt md5 maxRetry s = (Ok (NodeResponse r), sent) /\
         fdr_offset r = off /\
         fdr_count r = contentLength /\
         0 <= fdr_maxRetryRequests r /\
         (forall v, maxRetry = Some v -> 0 <= v -> fdr_maxRetryRequests r = v) /\
         (maxRetry = None \/ (exists v, maxRetry = Some v /\ v < 0) ->
          fdr_maxRetryRequests r = DEFAULT_MAX_DOWNLOAD_RETRY_REQUESTS)).
Proof.
  intros svc off cnt md5 maxRetry s Hmd5 Hoff Hcnt range sent.
  pose proof (requestedRange_valid off cnt Hoff Hcnt) as Hrange. fold range in Hrange.
  assert (Hrun := fun isNode =>
            download_requests svc isNode off cnt md5 maxRetry s range Hmd5 Hrange).
  fold sent in Hrun.
  split; [| split; [| split]].
  - intros e isNode Hsvc. rewrite Hrun, Hsvc. reflexivity.
  - intros res Hsvc. rewrite Hrun, Hsvc. reflexivity.
  - intros Hsvc. rewrite Hrun, Hsvc. eexists; reflexivity.
  - intros contentLength Hsvc. rewrite Hrun, Hsvc. cbn [negb].
    eexists. split; [reflexivity |].
    cbn [fdr_offset fdr_count fdr_maxRetryRequests].
    split; [reflexivity |]. split; [reflexivity |].
    unfold DEFAULT_MAX_DOWNLOAD_RETRY_REQUESTS.
    split; [| split].
    + destruct maxRetry as [v |]; [| lia]. destruct (Z.ltb_spec v 0); lia.
    + intros v -> Hv. decide_tests. reflexivity.
    + intros [-> | (v & -> & Hv)]; [reflexivity |]. decide_tests. reflexivity.
Qed.

Lemma download_response_witness :
  (exists msg,
     download headerlessService true 5 (Some 10) false None initial
     = (Throw (RangeError msg),
        mkSt [CtxDownload (Some (mkRange 5 (Some 10)))] 0 [] [])) /\
  exists r,
    download (serviceOf 100) true 5 (Some 10) false (Some (-1)) initial
    = (Ok (NodeResponse r), mkSt [CtxDownload (Some (mkRange 5 (Some 10)))] 0 [] []) /\
    fdr_maxRetryRequests r = DEFAULT_MAX_DOWNLOAD_RETRY_REQUESTS.
Proof.
  assert (Ho : 0 <= 5) by lia.
  assert (Hc : forall c, Some 10 = Some c -> 0 <= c)
    by (intros c Heq; injection Heq as <-; lia).
  split.
  - destruct (download_response headerlessService 5 (Some 10) false None initial
                eq_refl Ho Hc) as (_ & _ & H & _).
    apply H. reflexivity.
  - destruct (download_response (serviceOf 100) 5 (Some 10) false (Some (-1)) initial
                eq_refl Ho Hc) as (_ & _ & _ & H).
    destruct (H 10 eq_refl) as (r & Hrun & _ & _ & _ & _ & Hdefault).
    exists r. split; [exact Hrun |].
    apply Hdefault. right. exists (-1). split; [reflexivity | lia].
Defined.

(** ** What the transfers send themselves *)

(** X3: the two chunked uploads behave alike, and before the batch runs they
    send either nothing or the one request that creates the file.  A range
    size below 0 or above [FILE_RANGE_MAX_SIZE_BYTES], a parallelism below 0,
    or a size that [create] refuses, is a [RangeError] that leaves the state
    as it was.  Otherwise the creation is sent; its error, if any, is passed
    on, and only when it is accepted is the batch returned. *)
Theorem chunked_upload_creates_or_sends_nothing :
  forall svc size options s,
    let rangeSize := rangeSizeOf (up_rangeSize options) in
    let parallelism := parallelismOf (up_parallelism options) in
    UploadSeekableBlob svc size options s = uploadResetableStream svc size options s /\
    (rangeSize < 0 \/ rangeSize > FILE_RANGE_MAX_SIZE_BYTES \/ parallelism < 0 \/
     size < 0 \/ size > FILE_MAX_SIZE_BYTES ->
     exists msg, uploadResetableStream svc size options s = (Throw (RangeError msg), s)) /\
    (0 <= rangeSize <= FILE_RANGE_MAX_SIZE_BYTES ->
     0 <= parallelism ->
     0 <= size <= FILE_MAX_SIZE_BYTES ->
     calls (snd (uploadResetableStream svc size options s)) = calls s ++ [CtxCreate size] /\
     fst (uploadResetableStream svc size options s)
     = match svc_create svc size with
       | Ok _ => Ok (enqueueUploads size rangeSize parallelism (up_progress options))
       | Throw e => Throw e
       end).
Proof.
  intros svc size options s rangeSize parallelism.
  split; [reflexivity |]. split.
  - intros Hbad. unfold uploadResetableStream.
    fold (rangeSizeOf (up_rangeSize options)). fold rangeSize.
    fold (parallelismOf (up_parallelism options)). fold parallelism.
    rewrite Z.gtb_ltb.
    destruct (Z.ltb_spec rangeSize 0); [eexists; reflexivity |].
    destruct (Z.ltb_spec FILE_RANGE_MAX_SIZE_BYTES rangeSize); [eexists; reflexivity |].
    cbn [orb].
    destruct (Z.ltb_spec parallelism 0); [eexists; reflexivity |].
    run. destruct (create_rejects svc size s) as [msg Hmsg]; [lia |].
    rewrite Hmsg. eexists; reflexivity.
  - intros Hr Hp Hs.
    rewrite uploadResetableStream_checked by assumption.
    run. rewrite create_sends by assumption.
    fold rangeSize. fold parallelism.
    destruct (svc_create svc size) as [[] | e]; split; reflexivity.
Qed.

Lemma chunked_upload_creates_or_sends_nothing_witness :
  (exists msg,
     uploadResetableStream (serviceOf 0) 10 (mkUploadOptions (Some (-4)) None false) initial
     = (Throw (RangeError msg), initial)) /\
  calls (snd (uploadResetableStream (serviceOf 0) 10 (mkUploadOptions (Some 4) None false) initial))
  = calls initial ++ [CtxCreate 10].
Proof.
  split.
  - destruct (chunked_upload_creates_or_sends_nothing (serviceOf 0) 10
                (mkUploadOptions (Some (-4)) None false) initial) as (_ & H & _).
    apply H. left. cbn. lia.
  - destruct (chunked_upload_creates_or_sends_nothing (serviceOf 0) 10
                (mkUploadOptions (Some 4) None false) initial) as (_ & _ & H).
    destruct H as [H _].
    + cbn. unfold FILE_RANGE_MAX_SIZE_BYTES. lia.
    + cbn. unfold DEFAULT_HIGH_LEVEL_PARALLELISM. lia.
    + unfold FILE_MAX_SIZE_BYTES. lia.
    + exact H.
Defined.

(** X4: [uploadStream] rejects a buffer size of 0 or less, or above
    [FILE_RANGE_MAX_SIZE_BYTES], a number of buffers below 0, and a size
    that [create] refuses, each with a [RangeError] that leaves the state as
    it was; with valid arguments the one request it sends itself is the
    creation of the file. *)
Theorem uploadStream_creates_or_sends_nothing :
  forall svc size bufferSize maxBuffers onProgress s,
    (bufferSize <= 0 \/ bufferSize > FILE_RANGE_MAX_SIZE_BYTES \/ maxBuffers < 0 \/
     size < 0 \/ size > FILE_MAX_SIZE_BYTES ->
     exists msg,
       uploadStream svc size bufferSize maxBuffers onProgress s = (Throw (RangeError msg), s)) /\
    (0 < bufferSize <= FILE_RANGE_MAX_SIZE_BYTES ->
     0 <= maxBuffers ->
     0 <= size <= FILE_MAX_SIZE_BYTES ->
     calls (snd (uploadStream svc size bufferSize maxBuffers onProgress s))
     = calls s ++ [CtxCreate size]).
Proof.
  intros svc size bufferSize maxBuffers onProgress s. split.
  - intros Hbad. unfold uploadStream. rewrite Z.gtb_ltb.
    destruct (Z.leb_spec bufferSize 0); [eexists; reflexivity |].
    destruct (Z.ltb_spec FILE_RANGE_MAX_SIZE_BYTES bufferSize); [eexists; reflexivity |].
    cbn [orb].
    destruct (Z.ltb_spec maxBuffers 0); [eexists; reflexivity |].
    run. destruct (create_rejects svc size s) as [msg Hmsg]; [lia |].
    rewrite Hmsg. eexists; reflexivity.
  - intros Hb Hm Hs. rewrite uploadStream_checked by assumption.
    run. rewrite create_sends by assumption.
    destruct (svc_create svc size) as [[] | e]; reflexivity.
Qed.

Lemma uploadStream_creates_or_sends_nothing_witness :
  (exists msg, uploadStream (serviceOf 0) 10 0 2 false initial = (Throw (RangeError msg), initial)) /\
  calls (snd (uploadStream (serviceOf 0) 10 4 2 false initial)) = calls initial ++ [CtxCreate 10].
Proof.
  split.
  - destruct (uploadStream_creates_or_sends_nothing (serviceOf 0) 10 0 2 false initial)
      as [H _].
    apply H. left. lia.
  - destruct (uploadStream_creates_or_sends_nothing (serviceOf 0) 10 4 2 false initial)
      as [_ H].
    apply H; [unfold FILE_RANGE_MAX_SIZE_BYTES; lia | lia | unfold FILE_MAX_SIZE_BYTES; lia].
Defined.

(** X5: before its batch runs, [downloadToBuffer] sends nothing at all when
    a count other than 0 is given, and at most the one [getProperties]
    request otherwise; it never sends a download itself.  When the size has
    to be asked for and the other arguments are valid, an offset beyond the
    size of the file and a buffer shorter than the rest of the file are
    [RangeError]s raised after that request. *)
Theorem downloadToBuffer_asks_size_or_sends_nothing :
  forall svc bufferLength off cnt options s,
    let sent := mkSt (calls s ++ [CtxGetProperties])
                  (transferProgress s) (progressLog s) (fills s) in
    (calls (snd (downloadToBuffer svc bufferLength off cnt options s)) = calls s \/
     calls (snd (downloadToBuffer svc bufferLength off cnt options s))
     = calls s ++ [CtxGetProperties]) /\
    (falsy cnt = false ->
     calls (snd (downloadToBuffer svc bufferLength off cnt options s)) = calls s) /\
    (falsy cnt = true ->
     0 <= rangeSizeOf (down_rangeSize options) ->
     0 <= off ->
     0 <= parallelismOf (down_parallelism options) ->
     forall fileSize,
       svc_getProperties svc = Ok fileSize ->
       fileSize < off \/ bufferLength < fileSize - off ->
       exists msg,
         downloadToBuffer svc bufferLength off cnt options s = (Throw (RangeError msg), sent)).
Proof.
  intros svc bufferLength off cnt options s sent.
  assert (Hgiven : falsy cnt = false ->
                   calls (snd (downloadToBuffer svc bufferLength off cnt options s)) = calls s).
  { intros Hf. unfold downloadToBuffer. rewrite Hf. cbn [negb andb].
    do 4 (split_test; [reflexivity |]).
    run. split_test; reflexivity. }
  split; [| split].
  - destruct (falsy cnt) eqn:Hf; [| left; apply Hgiven; reflexivity].
    unfold downloadToBuffer. rewrite Hf. cbn [negb andb].
    split_test; [left; reflexivity |].
    split_test; [left; reflexivity |].
    split_test; [left; reflexivity |].
    right. unfold getProperties. run.
    destruct (svc_getProperties svc) as [fileSize | e]; [| reflexivity].
    repeat split_test; reflexivity.
  - exact Hgiven.
  - intros Hf Hr Ho Hp fileSize Hsvc Hbad.
    rewrite downloadToBuffer_unspecified by assumption.
    unfold getProperties. run. rewrite Hsvc.
    destruct (Z.ltb_spec (fileSize - off) 0); [eexists; reflexivity |].
    destruct (Z.ltb_spec bufferLength (fileSize - off)); [eexists; reflexivity |].
    lia.
Qed.

Lemma downloadToBuffer_asks_size_or_sends_nothing_witness :
  calls (snd (downloadToBuffer (serviceOf 10) 100 0 (Some 8)
                (mkDownloadOptions None None None false) initial)) = calls initial /\
  exists msg,
    downloadToBuffer (serviceOf 10) 100 11 None (mkDownloadOptions None None None false) initial
    = (Throw (RangeError msg), mkSt [CtxGetProperties] 0 [] []).
Proof.
  split.
  - destruct (downloadToBuffer_asks_size_or_sends_nothing (serviceOf 10) 100 0 (Some 8)
                (mkDownloadOptions None None None false) initial) as (_ & H & _).
    apply H. reflexivity.
  - destruct (downloadToBuffer_asks_size_or_sends_nothing (serviceOf 10) 100 11 None
                (mkDownloadOptions None None None false) initial) as (_ & _ & H).
    apply (H eq_refl) with (fileSize := 10).
    + cbn. unfold FILE_RANGE_MAX_SIZE_BYTES. lia.
    + lia.
    + cbn. unfold DEFAULT_HIGH_LEVEL_PARALLELISM. lia.
    + reflexivity.
    + left. lia.
Defined.

(** ** Options that are 0 *)

Lemma forBlocks_concurrency n op b : concurrency (forBlocks n op b) = concurrency b.
Proof.
  unfold forBlocks. generalize (seq 0 (Z.to_nat n)) as l. intros l. revert b.
  induction l as [| i l IH]; intros b; cbn [fold_left]; [reflexivity |].
  rewrite IH. reflexivity.
Qed.

Lemma enqueueUploads_concurrency size rangeSize parallelism onProgress :
  concurrency (enqueueUploads size rangeSize parallelism onProgress) = parallelism.
Proof.
  unfold enqueueUploads. rewrite forBlocks_concurrency. reflexivity.
Qed.

(** X6: a range size of 0 and a parallelism of 0 are not rejected, although
    the messages of the checks ask for values above 0: in the chunked
    uploads and in [downloadToBuffer] they act as options that were not
    given.  An upload called with both set to 0 therefore runs with the
    default parallelism and in [Math.ceil(size / FILE_RANGE_MAX_SIZE_BYTES)]
    ranges of at most [FILE_RANGE_MAX_SIZE_BYTES] bytes. *)
Theorem zero_options_are_defaults :
  forall svc size onProgress s bufferLength off cnt maxRetry,
    uploadResetableStream svc size (mkUploadOptions (Some 0) (Some 0) onProgress) s
    = uploadResetableStream svc size (mkUploadOptions None None onProgress) s /\
    UploadSeekableBlob svc size (mkUploadOptions (Some 0) (Some 0) onProgress) s
    = UploadSeekableBlob svc size (mkUploadOptions None None onProgress) s /\
    downloadToBuffer svc bufferLength off cnt
      (mkDownloadOptions (Some 0) maxRetry (Some 0) onProgress) s
    = downloadToBuffer svc bufferLength off cnt
        (mkDownloadOptions None maxRetry None onProgress) s /\
    (0 <= size <= FILE_MAX_SIZE_BYTES ->
     svc_create svc size = Ok tt ->
     exists batch t,
       uploadResetableStream svc size (mkUploadOptions (Some 0) (Some 0) onProgress) s
       = (Ok batch, t) /\
       concurrency batch = DEFAULT_HIGH_LEVEL_PARALLELISM /\
       Z.of_nat (List.length (operations batch))
       = Math_ceil (inject_Z size / inject_Z FILE_RANGE_MAX_SIZE_BYTES) /\
       Forall (fun c => 0 < snd c <= FILE_RANGE_MAX_SIZE_BYTES)
         (map chunkOf (operations batch))).
Proof.
  intros svc size onProgress s bufferLength off cnt maxRetry.
  split; [reflexivity |]. split; [reflexivity |]. split; [reflexivity |].
  intros Hsize Hcreate.
  assert (Hmax : 0 < FILE_RANGE_MAX_SIZE_BYTES) by (unfold FILE_RANGE_MAX_SIZE_BYTES; lia).
  eexists. eexists. split.
  - apply uploadResetableStream_enqueues; try assumption.
    + cbn. lia.
    + cbn. unfold DEFAULT_HIGH_LEVEL_PARALLELISM. lia.
  - cbn [up_rangeSize up_parallelism up_progress].
    change (rangeSizeOf (Some 0)) with FILE_RANGE_MAX_SIZE_BYTES.
    change (parallelismOf (Some 0)) with DEFAULT_HIGH_LEVEL_PARALLELISM.
    split; [apply enqueueUploads_concurrency |]. split.
    + rewrite enqueueUploads_operations, length_map, length_seq.
      rewrite <- numBlocks_ceil by assumption.
      pose proof (numBlocks_bounds size FILE_RANGE_MAX_SIZE_BYTES Hmax (proj1 Hsize)). lia.
    + eapply Forall_impl; [| apply upload_chunks_bounded; lia].
      cbn beta. intros c Hc. lia.
Qed.

Lemma zero_options_are_defaults_witness :
  exists batch t,
    uploadResetableStream (serviceOf 0) 10 (mkUploadOptions (Some 0) (Some 0) false) initial
    = (Ok batch, t) /\
    concurrency batch = DEFAULT_HIGH_LEVEL_PARALLELISM /\
    Z.of_nat (List.length (operations batch))
    = Math_ceil (inject_Z 10 / inject_Z FILE_RANGE_MAX_SIZE_BYTES) /\
    Forall (fun c => 0 < snd c <= FILE_RANGE_MAX_SIZE_BYTES) (map chunkOf (operations batch)).
Proof.
  destruct (zero_options_are_defaults (serviceOf 0) 10 false initial 0 0 None None)
    as (_ & _ & _ & H).
  apply H; [unfold FILE_MAX_SIZE_BYTES; lia | reflexivity].
Defined.

(** ** Settled uploads *)

Lemma settle_uploads_sent svc isNode onProgress order :
  (forall r len, svc_uploadRange svc r len = Ok tt) ->
  Forall (uploadable onProgress) order ->
  forall t,
    exists t',
      settle svc isNode order t = (Ok tt, t') /\
      calls t' = calls t ++ map (fun op => uploadCall (chunkOf op)) order /\
      fills t' = fills t.
Proof.
  intros Hsvc. induction 1 as [| op rest Hop Hrest IH]; intros t.
  - exists t. cbn. rewrite app_nil_r. repeat split.
  - cbn [settle]. unfold bind at 1.
    rewrite (runOperation_upload svc isNode onProgress op t Hop), Hsvc.
    destruct (IH (mkSt (calls t ++ [uploadCall (chunkOf op)])
                    (transferProgress t + snd (chunkOf op))
                    (progressLog t
                     ++ (if onProgress then [transferProgress t + snd (chunkOf op)] else []))
                    (fills t)))
      as (t' & Hrun & Hcalls & Hfills).
    exists t'. split; [exact Hrun |]. split; [| exact Hfills].
    rewrite Hcalls. cbn [calls map]. rewrite <- app_assoc. reflexivity.
Qed.

(** X7: after a chunked upload has returned its batch, let the operations
    settle in any order, every range upload being accepted.  Whatever the
    order, and with or without a progress callback, the requests sent after
    the creation of the file are the range uploads of the planned chunks,
    each exactly once, and nothing else: no download, no second creation,
    no write to a buffer. *)
Theorem upload_sends_each_chunk_once :
  forall svc isNode size options s batch t order,
    (forall r len, svc_uploadRange svc r len = Ok tt) ->
    uploadResetableStream svc size options s = (Ok batch, t) \/
    UploadSeekableBlob svc size options s = (Ok batch, t) ->
    Permutation order (operations batch) ->
    exists t' sent,
      settle svc isNode order t = (Ok tt, t') /\
      calls t' = calls s ++ CtxCreate size :: sent /\
      Permutation sent (map (fun op => uploadCall (chunkOf op)) (operations batch)) /\
      fills t' = fills s.
Proof.
  intros svc isNode size options s batch t order Hsvc Hrun Hperm.
  assert (Hrun' : uploadResetableStream svc size options s = (Ok batch, t))
    by (destruct Hrun as [H | H]; exact H).
  clear Hrun.
  apply uploadResetableStream_ok_inv in Hrun'.
  destruct Hrun' as (Hrange & Hpar & Hsize & Hbatch & Ht).
  assert (Hpos : 0 < rangeSizeOf (up_rangeSize options))
    by (apply rangeSizeOf_positive; lia).
  assert (Hall : Forall (uploadable (up_progress options)) order).
  { apply (Permutation_Forall (Permutation_sym Hperm)).
    rewrite Hbatch. apply enqueueUploads_uploadable; lia. }
  destruct (settle_uploads_sent svc isNode (up_progress options) order Hsvc Hall t)
    as (t' & Hsettle & Hcalls & Hfills).
  exists t', (map (fun op => uploadCall (chunkOf op)) order).
  split; [exact Hsettle |]. split; [| split].
  - rewrite Hcalls, Ht. cbn [calls]. rewrite <- app_assoc. reflexivity.
  - apply Permutation_map. exact Hperm.
  - rewrite Hfills, Ht. reflexivity.
Qed.

Lemma upload_sends_each_chunk_once_witness :
  let order := [UploadChunk 10 4 3 false 1; UploadChunk 10 4 3 false 2;
                UploadChunk 10 4 3 false 0] in
  exists t' sent,
    settle (serviceOf 0) true order (mkSt [CtxCreate 10] 0 [] []) = (Ok tt, t') /\
    calls t' = calls initial ++ CtxCreate 10 :: sent /\
    Permutation sent
      (map (fun op => uploadCall (chunkOf op)) (operations (enqueueUploads 10 4 5 false))) /\
    fills t' = fills initial.
Proof.
  intros order.
  apply (upload_sends_each_chunk_once (serviceOf 0) true 10
           (mkUploadOptions (Some 4) None false) initial (enqueueUploads 10 4 5 false)
           (mkSt [CtxCreate 10] 0 [] []) order).
  - intros r len. reflexivity.
  - left. reflexivity.
  - apply Permutation_sym.
    apply (Permutation_cons_append
             [UploadChunk 10 4 3 false 1; UploadChunk 10 4 3 false 2]
             (UploadChunk 10 4 3 false 0)).
Defined.

(** X8: progress is counted and reported only for range uploads the service
    accepted.  When the service refuses the range upload of an operation of
    the batch, the operation fails with that error after its request went
    out; the transferred total is unchanged and the callback is not called. *)
Theorem upload_refused_counts_nothing :
  forall svc isNode size options s batch t op u e,
    uploadResetableStream svc size options s = (Ok batch, t) \/
    UploadSeekableBlob svc size options s = (Ok batch, t) ->
    In op (operations batch) ->
    svc_uploadRange svc (mkRange (fst (chunkOf op)) (Some (snd (chunkOf op))))
      (snd (chunkOf op)) = Throw e ->
    runOperation svc isNode op u
    = (Throw e,
       mkSt (calls u ++ [uploadCall (chunkOf op)])
         (transferProgress u) (progressLog u) (fills u)).
Proof.
  intros svc isNode size options s batch t op u e Hrun Hin Hsvc.
  assert (Hrun' : uploadResetableStream svc size options s = (Ok batch, t))
    by (destruct Hrun as [H | H]; exact H).
  clear Hrun.
  apply uploadResetableStream_ok_inv in Hrun'.
  destruct Hrun' as (Hrange & Hpar & Hsize & Hbatch & Ht).
  assert (Hpos : 0 < rangeSizeOf (up_rangeSize options))
    by (apply rangeSizeOf_positive; lia).
  assert (Hop : uploadable (up_progress options) op).
  { pose proof (enqueueUploads_uploadable size (rangeSizeOf (up_rangeSize options))
                  (parallelismOf (up_parallelism options)) (up_progress options)) as Hall.
    rewrite Forall_forall in Hall. apply Hall; [lia | lia |].
    rewrite <- Hbatch. exact Hin. }
  rewrite (runOperation_upload svc isNode (up_progress options) op u Hop), Hsvc.
  reflexivity.
Qed.

Lemma upload_refused_counts_nothing_witness :
  runOperation refusingService true (UploadChunk 10 4 3 true 1) (mkSt [CtxCreate 10] 4 [4] [])
  = (Throw (RestError "refused"),
     mkSt ([CtxCreate 10] ++ [uploadCall (chunkOf (UploadChunk 10 4 3 true 1))]) 4 [4] []).
Proof.
  apply (upload_refused_counts_nothing refusingService true 10
           (mkUploadOptions (Some 4) None true) initial (enqueueUploads 10 4 5 true)
           (mkSt [CtxCreate 10] 0 [] []) (UploadChunk 10 4 3 true 1)
           (mkSt [CtxCreate 10] 4 [4] []) (RestError "refused")).
  - left. reflexivity.
  - cbn. right. left. reflexivity.
  - reflexivity.
Defined.

(** ** The handler of [uploadStream] and the declared size *)

(** X9: the outgoing handler of [uploadStream] tests the transferred total
    when it starts and adds to it when its upload has been answered.  The
    start throws a [RangeError] and sends nothing when the total plus the
    length of the buffer exceeds [size]; otherwise a buffer of valid length
    and offset is sent by one range upload at its offset.  The resumption
    adds the length to the total it finds when the upload was accepted, and
    passes a refusal on with the total unchanged.  Hence a call between
    whose start and resumption the total did not move, and that started
    with a total of at most [size], ends with a total that is not smaller
    and still at most [size]. *)
Theorem outgoingHandler_tests_then_adds :
  forall svc size onProgress len off t,
    (transferProgress t + len > size ->
     exists msg, outgoingHandlerStart svc size len off t = (Throw (RangeError msg), t)) /\
    (transferProgress t + len <= size ->
     0 <= off ->
     0 < len <= FILE_RANGE_MAX_SIZE_BYTES ->
     outgoingHandlerStart svc size len off t =
     (Ok (svc_uploadRange svc (mkRange off (Some len)) len),
      mkSt (calls t ++ [CtxUploadRange (mkRange off (Some len)) len (FilledBuffer len)])
        (transferProgress t) (progressLog t) (fills t))) /\
    (forall u,
       outgoingHandlerResume onProgress len (Ok tt) u =
       (Ok tt,
        mkSt (calls u) (transferProgress u + len)
          (progressLog u ++ (if onProgress then [transferProgress u + len] else []))
          (fills u))) /\
    (forall e u, outgoingHandlerResume onProgress len (Throw e) u = (Throw e, u)) /\
    (forall answer t1 u out u',
       transferProgress t <= size ->
       outgoingHandlerStart svc size len off t = (Ok answer, t1) ->
       transferProgress u = transferProgress t ->
       outgoingHandlerResume onProgress len answer u = (out, u') ->
       transferProgress t <= transferProgress u' <= size).
Proof.
  intros svc size onProgress len off t.
  split; [apply outgoingHandlerStart_over_size |].
  split; [apply outgoingHandlerStart_sends |].
  split; [apply outgoingHandlerResume_accepted |].
  split; [reflexivity |].
  intros answer t1 u out u' Hinv Hstart Hsame Hresume.
  destruct answer as [[] | e].
  - rewrite outgoingHandlerResume_accepted in Hresume. injection Hresume as _ <-.
    cbn [transferProgress]. rewrite Hsame.
    revert Hstart. unfold outgoingHandlerStart, getTransferProgress, attempt. run.
    rewrite Z.gtb_ltb.
    destruct (Z.ltb_spec size (transferProgress t + len)); [discriminate |].
    unfold uploadRange.
    destruct (Z.ltb_spec off 0); cbn [orb]; [discriminate |].
    destruct (Z.leb_spec len 0); [discriminate |].
    intros _. lia.
  - cbn in Hresume. injection Hresume as _ <-. lia.
Qed.

Lemma outgoingHandler_tests_then_adds_witness :
  (exists msg,
     outgoingHandlerStart (serviceOf 0) 10 4 8 (mkSt [] 8 [] [])
     = (Throw (RangeError msg), mkSt [] 8 [] [])) /\
  outgoingHandlerStart (serviceOf 0) 10 4 4 (mkSt [] 4 [] [])
  = (Ok (Ok tt),
     mkSt [CtxUploadRange (mkRange 4 (Some 4)) 4 (FilledBuffer 4)] 4 [] []) /\
  4 <= transferProgress
         (snd (outgoingHandlerResume true 4 (Ok tt)
                 (mkSt [CtxUploadRange (mkRange 4 (Some 4)) 4 (FilledBuffer 4)] 4 [] [])))
    <= 10.
Proof.
  destruct (outgoingHandler_tests_then_adds (serviceOf 0) 10 true 4 8 (mkSt [] 8 [] []))
    as (Hover & _).
  destruct (outgoingHandler_tests_then_adds (serviceOf 0) 10 true 4 4 (mkSt [] 4 [] []))
    as (_ & Hsend & _ & _ & Hkeep).
  split; [apply Hover; cbn; lia |].
  assert (Hstart : outgoingHandlerStart (serviceOf 0) 10 4 4 (mkSt [] 4 [] [])
                   = (Ok (Ok tt),
                      mkSt [CtxUploadRange (mkRange 4 (Some 4)) 4 (FilledBuffer 4)] 4 [] [])).
  { apply Hsend; cbn; unfold FILE_RANGE_MAX_SIZE_BYTES; lia. }
  split; [exact Hstart |].
  apply (Hkeep (Ok tt)
           (mkSt [CtxUploadRange (mkRange 4 (Some 4)) 4 (FilledBuffer 4)] 4 [] [])
           (mkSt [CtxUploadRange (mkRange 4 (Some 4)) 4 (FilledBuffer 4)] 4 [] [])
           (fst (outgoingHandlerResume true 4 (Ok tt)
                   (mkSt [CtxUploadRange (mkRange 4 (Some 4)) 4 (FilledBuffer 4)] 4 [] [])))).
  - cbn. lia.
  - exact Hstart.
  - reflexivity.
  - reflexivity.
Defined.

(** ** The operations of [downloadToBuffer] *)

Lemma iterations_numBlocks off cnt rangeSize :
  0 < rangeSize -> 0 <= cnt ->
  iterations off (off + cnt) rangeSize = Z.to_nat (numBlocks cnt rangeSize).
Proof.
  intros Hr Hc. unfold iterations. rewrite numBlocks_div by assumption.
  replace (off + cnt - off + rangeSize - 1) with ((cnt - 1) + 1 * rangeSize) by lia.
  rewrite Z.div_add by lia. reflexivity.
Qed.

(** From offset 0, [downloadToBuffer] plans the chunks a chunked upload of
    as many bytes plans. *)
Lemma download_plan_from_start cnt rangeSize parallelism maxRetry onProgress :
  0 < rangeSize -> 0 <= cnt ->
  map chunkOf (operations (enqueueDownloads 0 cnt rangeSize parallelism maxRetry onProgress))
  = map chunkOf (operations (enqueueUploads cnt rangeSize 0 false)).
Proof.
  intros Hr Hc.
  rewrite enqueueDownloads_operations, enqueueUploads_plan by assumption.
  rewrite iterations_numBlocks by assumption.
  rewrite map_map. apply map_ext_in. intros i Hi. apply in_seq in Hi.
  pose proof (numBlocks_bounds cnt rangeSize Hr Hc) as Hn.
  cbn [chunkOf]. unfold downloadChunkEnd.
  destruct (Z.eq_dec (Z.of_nat i) (numBlocks cnt rangeSize - 1)) as [Hlast | Hinner].
  - rewrite Hlast, uploadChunkRange_last.
    destruct (Z.ltb_spec (0 + rangeSize * (numBlocks cnt rangeSize - 1) + rangeSize) cnt);
      [nia |].
    f_equal; lia.
  - rewrite uploadChunkRange_inner by assumption.
    destruct (Z.ltb_spec (0 + rangeSize * Z.of_nat i + rangeSize) cnt); [| nia].
    f_equal; lia.
Qed.

Lemma runOperation_download svc off0 cnt rangeSize maxRetry onProgress off t L :
  0 <= off ->
  0 < downloadChunkEnd cnt rangeSize off - off + 1 ->
  svc_download svc
    (Some (mkRange off (Some (downloadChunkEnd cnt rangeSize off - off + 1)))) = Ok (Some L) ->
  runOperation svc true (DownloadChunk off0 cnt rangeSize maxRetry onProgress off) t
  = (Ok tt,
     mkSt (calls t
           ++ [CtxDownload
                 (Some (mkRange off (Some (downloadChunkEnd cnt rangeSize off - off + 1))))])
       (transferProgress t + (downloadChunkEnd cnt rangeSize off - off))
       (progressLog t
        ++ (if onProgress
            then [transferProgress t + (downloadChunkEnd cnt rangeSize off - off)]
            else []))
       (fills t ++ [mkFill (off - off0) (downloadChunkEnd cnt rangeSize off - off0)])).
Proof.
  intros Hoff Hcount Hsvc.
  cbn [runOperation]. unfold bind at 1.
  rewrite (download_requests svc true off
             (Some (downloadChunkEnd cnt rangeSize off - off + 1)) false maxRetry t
             (Some (mkRange off (Some (downloadChunkEnd cnt rangeSize off - off + 1))))).
  - rewrite Hsvc. cbn [negb].
    unfold streamToBuffer, addTransferProgress, getTransferProgress, setTransferProgress,
      progress. run.
    destruct onProgress; cbn; [reflexivity |].
    rewrite app_nil_r. reflexivity.
  - reflexivity.
  - rewrite requestedRange_valid.
    + cbn [falsy].
      rewrite (proj2 (Z.eqb_neq (downloadChunkEnd cnt rangeSize off - off + 1) 0)) by lia.
      rewrite andb_false_r. reflexivity.
    + exact Hoff.
    + intros c Heq. injection Heq as <-. lia.
Qed.

(** X10: a download of [count] bytes from offset 0 into a buffer that holds
    them plans [Math.ceil(count / rangeSize)] operations, and the windows of
    the buffer they fill tile [0, count): none is empty, each starts where
    the one before ends, the last ends at [count].  An operation whose
    download is answered adds the length of its window to the transferred
    total, and the request it sends starts at its window and asks for one
    byte more than the window holds. *)
Theorem download_from_start_fills_buffer :
  forall svc bufferLength c options s,
    0 < c <= bufferLength ->
    0 <= rangeSizeOf (down_rangeSize options) ->
    0 <= parallelismOf (down_parallelism options) ->
    exists batch,
      downloadToBuffer svc bufferLength 0 (Some c) options s
      = (Ok batch, mkSt (calls s) 0 (progressLog s) (fills s)) /\
      Z.of_nat (List.length (operations batch))
      = Math_ceil (inject_Z c / inject_Z (rangeSizeOf (down_rangeSize options))) /\
      tiles 0 (map chunkOf (operations batch)) c /\
      forall op,
        In op (operations batch) ->
        let start := fst (chunkOf op) in
        let len := snd (chunkOf op) in
        windowOf op = Some (mkFill start (start + len)) /\
        forall u L,
          svc_download svc (Some (mkRange start (Some (len + 1)))) = Ok (Some L) ->
          exists u',
            runOperation svc true op u = (Ok tt, u') /\
            fills u' = fills u ++ [mkFill start (start + len)] /\
            transferProgress u' = transferProgress u + len /\
            calls u' = calls u ++ [CtxDownload (Some (mkRange start (Some (len + 1))))].
Proof.
  intros svc bufferLength c options s Hc Hr Hp.
  pose proof (rangeSizeOf_positive _ Hr) as Hpos.
  eexists. split; [apply downloadToBuffer_specified; (assumption || lia) |].
  set (R := rangeSizeOf (down_rangeSize options)) in *.
  set (batch := enqueueDownloads 0 c R (parallelismOf (down_parallelism options))
                  (down_maxRetryRequestsPerRange options) (down_progress options)).
  assert (Hplan : map chunkOf (operations batch)
                  = map chunkOf (operations (enqueueUploads c R 0 false)))
    by (apply download_plan_from_start; lia).
  split; [| split].
  - rewrite <- (length_map chunkOf), Hplan, enqueueUploads_plan, length_map, length_seq.
    rewrite <- numBlocks_ceil by assumption.
    pose proof (numBlocks_bounds c R Hpos (Z.lt_le_incl _ _ (proj1 Hc))). lia.
  - rewrite Hplan. apply upload_chunks_tile; lia.
  - intros op Hin start len.
    assert (Hlen : 0 < len).
    { assert (Hall : Forall (fun x => 0 <= fst x /\ 0 < snd x <= R) (map chunkOf (operations batch)))
        by (rewrite Hplan; apply upload_chunks_bounded; lia).
      rewrite Forall_forall in Hall.
      apply (Hall (chunkOf op)). apply in_map. exact Hin. }
    subst batch. rewrite enqueueDownloads_operations in Hin by assumption.
    apply in_map_iff in Hin. destruct Hin as (k & <- & _).
    subst start len. cbn [chunkOf fst snd windowOf] in *.
    split; [f_equal; f_equal; lia |].
    intros u L Hsvc. eexists. split.
    + apply runOperation_download with (L := L); [nia | lia | exact Hsvc].
    + cbn [fills transferProgress calls]. repeat split.
      f_equal. f_equal. f_equal; lia.
Qed.

Lemma download_from_start_fills_buffer_witness :
  exists batch,
    downloadToBuffer (serviceOf 100) 10 0 (Some 10) (mkDownloadOptions (Some 4) None None true)
      initial = (Ok batch, mkSt (calls initial) 0 (progressLog initial) (fills initial)) /\
    Z.of_nat (List.length (operations batch)) = Math_ceil (inject_Z 10 / inject_Z 4) /\
    tiles 0 (map chunkOf (operations batch)) 10.
Proof.
  destruct (download_from_start_fills_buffer (serviceOf 100) 10 10
              (mkDownloadOptions (Some 4) None None true) initial)
    as (batch & Hrun & Hcount & Htiles & _).
  - lia.
  - cbn. lia.
  - cbn. unfold DEFAULT_HIGH_LEVEL_PARALLELISM. lia.
  - exists batch. repeat split; assumption.
Defined.

(** ** [uploadFile] and [uploadBrowserData] *)

Lemma upload_chunk_within size rangeSize parallelism onProgress c :
  0 < rangeSize -> 0 <= size ->
  In c (map chunkOf (operations (enqueueUploads size rangeSize parallelism onProgress))) ->
  0 <= fst c /\ 0 < snd c /\ fst c + snd c <= size.
Proof.
  intros Hr Hs Hin.
  pose proof (upload_chunks_bounded size rangeSize Hr Hs parallelism onProgress) as Hall.
  rewrite Forall_forall in Hall. destruct (Hall c Hin) as (Hstart & Hlen & _).
  pose proof (upload_chunks_tile size rangeSize Hr Hs parallelism onProgress) as Htiles.
  assert (Hcov : covers c (fst c + snd c - 1)) by (unfold covers; lia).
  pose proof (tiles_inside _ _ _ _ _ Htiles Hin Hcov). lia.
Qed.

(** X12: when [uploadFile] returns its batch, the chunks of its operations
    tile the file from byte 0 to its size, and the stream each operation
    opens on the file starts at the first byte of the chunk and ends, with
    an inclusive [end], exactly at its last byte: the end is never
    [Infinity] and never at or past the size of the file.  A file of 0 bytes
    is created and no operation is planned for it. *)
Theorem uploadFile_reads_each_chunk :
  forall svc statSize options s batch t,
    uploadFile svc statSize options s = (Ok batch, t) ->
    calls t = calls s ++ [CtxCreate statSize] /\
    tiles 0 (map chunkOf (operations batch)) statSize /\
    (statSize = 0 -> operations batch = []) /\
    forall op,
      In op (operations batch) ->
      let start := fst (chunkOf op) in
      let len := snd (chunkOf op) in
      streamOf op = mkReadStreamOptions start (Some (start + len - 1)) /\
      0 <= start <= start + len - 1 /\
      start + len - 1 < statSize.
Proof.
  intros svc statSize options s batch t Hrun. unfold uploadFile in Hrun.
  apply uploadResetableStream_ok_inv in Hrun.
  destruct Hrun as (Hrange & _ & Hsize & -> & ->).
  set (given := match options with
                | Some given => given
                | None => mkUploadOptions None None false
                end) in *.
  assert (Hpos : 0 < rangeSizeOf (up_rangeSize given)) by (apply rangeSizeOf_positive; lia).
  split; [reflexivity |]. split; [apply upload_chunks_tile; lia |]. split.
  - intros ->. rewrite enqueueUploads_operations.
    replace (numBlocks 0 (rangeSizeOf (up_rangeSize given))) with 0; [reflexivity |].
    pose proof (numBlocks_bounds 0 (rangeSizeOf (up_rangeSize given)) Hpos (Z.le_refl 0)).
    nia.
  - intros op Hin start len.
    destruct (upload_chunk_within statSize (rangeSizeOf (up_rangeSize given))
                (parallelismOf (up_parallelism given)) (up_progress given) (chunkOf op))
      as (Hstart & Hlen & Hend); [assumption | lia | apply in_map; exact Hin |].
    fold start in Hstart, Hend. fold len in Hlen, Hend.
    split; [| lia].
    unfold streamOf, uploadFile_streamFactory. fold start. fold len.
    cbn [falsy the]. rewrite (proj2 (Z.eqb_neq len 0)) by lia. reflexivity.
Qed.

Lemma uploadFile_reads_each_chunk_witness :
  tiles 0 (map chunkOf (operations (enqueueUploads 10 4 5 false))) 10 /\
  streamOf (UploadChunk 10 4 3 false 2) = mkReadStreamOptions 8 (Some 9).
Proof.
  destruct (uploadFile_reads_each_chunk (serviceOf 0) 10
              (Some (mkUploadOptions (Some 4) None false)) initial
              (enqueueUploads 10 4 5 false) (mkSt [CtxCreate 10] 0 [] []) eq_refl)
    as (_ & Htiles & _ & Hops).
  split; [exact Htiles |].
  destruct (Hops (UploadChunk 10 4 3 false 2)) as (Hstream & _).
  - cbn. right. right. left. reflexivity.
  - exact Hstream.
Defined.

(** X13: when [uploadBrowserData] returns its batch, every operation slices
    the blob from the start of its chunk to the end of its chunk, a slice
    that is not empty and lies inside the blob; the slices follow one
    another from 0 to the size of the blob. *)
Theorem uploadBrowserData_slices_each_chunk :
  forall svc blobSize options s batch t,
    uploadBrowserData svc blobSize options s = (Ok batch, t) ->
    tiles 0 (map chunkOf (operations batch)) blobSize /\
    forall op,
      In op (operations batch) ->
      let start := fst (chunkOf op) in
      let len := snd (chunkOf op) in
      sliceOf op = (start, start + len) /\
      0 <= start < start + len /\
      start + len <= blobSize.
Proof.
  intros svc blobSize options s batch t Hrun. unfold uploadBrowserData in Hrun.
  change (UploadSeekableBlob svc blobSize options s)
    with (uploadResetableStream svc blobSize options s) in Hrun.
  apply uploadResetableStream_ok_inv in Hrun.
  destruct Hrun as (Hrange & _ & Hsize & -> & ->).
  assert (Hpos : 0 < rangeSizeOf (up_rangeSize options)) by (apply rangeSizeOf_positive; lia).
  split; [apply upload_chunks_tile; lia |].
  intros op Hin start len.
  destruct (upload_chunk_within blobSize (rangeSizeOf (up_rangeSize options))
              (parallelismOf (up_parallelism options)) (up_progress options) (chunkOf op))
    as (Hstart & Hlen & Hend); [assumption | lia | apply in_map; exact Hin |].
  fold start in Hstart, Hend. fold len in Hlen, Hend.
  split; [reflexivity | lia].
Qed.

Lemma uploadBrowserData_slices_each_chunk_witness :
  sliceOf (UploadChunk 10 4 3 false 2) = (8, 8 + 2) /\ 8 + 2 <= 10.
Proof.
  destruct (uploadBrowserData_slices_each_chunk (serviceOf 0) 10
              (mkUploadOptions (Some 4) None false) initial
              (enqueueUploads 10 4 5 false) (mkSt [CtxCreate 10] 0 [] []) eq_refl)
    as (_ & Hops).
  destruct (Hops (UploadChunk 10 4 3 false 2)) as (Hslice & _ & Hend).
  - cbn. right. right. left. reflexivity.
  - split; [exact Hslice | exact Hend].
Defined.
